(** * Session validation and identity normalisation (shared/auth/kratos.go)

    A shallow embedding of the [auth] package: the trait projector
    [getStringFromTraits], the credential extractor [extractSessionToken],
    the gateway operations [ValidateSession], [GetUser], [UpdateUser], the
    verification resolver [isEmailVerified] and [SessionMiddleware].

    The identity provider is a remote service: it is a parameter of the
    development, a transition system on an abstract remote state. Each
    gateway operation threads that state and a log of the calls it made. *)

From Stdlib Require Import ZArith String List Bool.
From stdpp Require Import base option gmap strings list pretty.

#[local] Set Warnings "-register-all".
#[local] Open Scope string_scope.
#[local] Open Scope Z_scope.

(** ** Go strings *)

(** [s[n:]] for [n <= len(s)]. *)
Fixpoint drop_chars (n : nat) (s : string) : string :=
  match n, s with
  | O, _ => s
  | S n', String _ s' => drop_chars n' s'
  | S _, EmptyString => EmptyString
  end.

(** [strings.HasPrefix(s, prefix)]. *)
Definition HasPrefix (s prefix : string) : bool := String.prefix prefix s.

(** [strings.TrimPrefix(s, prefix)]: [s] without the leading [prefix], or
    [s] itself when it does not start with [prefix]. *)
Definition TrimPrefix (s prefix : string) : string :=
  if HasPrefix s prefix then drop_chars (String.length prefix) s else s.

(** ** Go values of type [interface{}]

    What a JSON document decodes to, which is what the client library hands
    back for an identity's traits. [VNil] is the nil interface. *)
Inductive GoValue :=
| VNil
| VString (s : string)
| VBool (b : bool)
| VNumber (n : Z)
| VSlice (l : list GoValue)
| VMap (m : gmap string GoValue).

(** [time.Time], as an instant. *)
Definition Time := Z.

(** ** The trait projector *)

(** [getStringFromTraits(traits, key)]: the two type assertions
    [traits.(map[string]interface{})] and [val.(string)] succeed on [VMap]
    and [VString] only. *)
Definition getStringFromTraits (traits : GoValue) (key : string) : string :=
  match traits with
  | VNil => ""
  | VMap traitsMap =>
      match traitsMap !! key with
      | Some (VString str) => str
      | _ => ""
      end
  | _ => ""
  end.

(** ** [KratosUser] *)

Record KratosUser := {
  ID : string;
  Email : string;
  Username : string;
  FirstName : string;
  LastName : string;
  Phone : string;
  SubscriptionPlan : string;
  Avatar : string;
  EmailVerified : bool;
  Active : bool;
  CreatedAt : Time;
  UpdatedAt : Time;
  Traits : GoValue
}.

(** ** Requests *)

Record Cookie := { Name : string; Value : string }.

(** A value stored in a [context.Context]. *)
Inductive CtxValue :=
| CtxUser (u : option KratosUser)   (* a KratosUser pointer, possibly nil *)
| CtxOther (v : GoValue).

(** A context is the chain of [WithValue] bindings, innermost first. *)
Definition Context := list (string * CtxValue).

Definition WithValue (ctx : Context) (key : string) (v : CtxValue) : Context :=
  (key, v) :: ctx.

Fixpoint Context_Value (ctx : Context) (key : string) : option CtxValue :=
  match ctx with
  | [] => None
  | (k, v) :: parent => if String.eqb k key then Some v else Context_Value parent key
  end.

(** [http.Request], as far as the package reads it: the header map (keys in
    canonical form), the cookies the request carries, and its context. *)
Record Request := {
  Header : gmap string (list string);
  Cookies : list Cookie;
  Ctx : Context
}.

(** [r.Header.Get(key)]: the first value of the key, [""] when there is none. *)
Definition Header_Get (h : gmap string (list string)) (key : string) : string :=
  match h !! key with
  | Some (v :: _) => v
  | _ => ""
  end.

(** [r.Cookie(name)]: the first cookie of that name; [None] is [ErrNoCookie]. *)
Fixpoint find_cookie (cs : list Cookie) (name : string) : option Cookie :=
  match cs with
  | [] => None
  | c :: rest => if String.eqb (Name c) name then Some c else find_cookie rest name
  end.

Definition Request_Cookie (r : Request) (name : string) : option Cookie :=
  find_cookie (Cookies r) name.

Definition WithContext (r : Request) (ctx : Context) : Request :=
  {| Header := Header r; Cookies := Cookies r; Ctx := ctx |}.

(** ** The credential extractor *)

Definition extractSessionToken (r : Request) : string :=
  let auth := Header_Get (Header r) "Authorization" in
  if negb (String.eqb auth "") && HasPrefix auth "Bearer " then
    TrimPrefix auth "Bearer "
  else
    let token := Header_Get (Header r) "X-Session-Token" in
    if negb (String.eqb token "") then token
    else
      match Request_Cookie r "ory_kratos_session" with
      | Some cookie => Value cookie
      | None => ""
      end.

(** The extraction policy in the specification's words: three transports,
    each of which may yield a credential, tried in a fixed order. *)
Definition transport_bearer (r : Request) : option string :=
  let auth := Header_Get (Header r) "Authorization" in
  if HasPrefix auth "Bearer " then Some (TrimPrefix auth "Bearer ") else None.

Definition transport_custom (r : Request) : option string :=
  let token := Header_Get (Header r) "X-Session-Token" in
  if String.eqb token "" then None else Some token.

Definition transport_cookie (r : Request) : option string :=
  Value <$> Request_Cookie r "ory_kratos_session".

Fixpoint first_match (transports : list (Request -> option string)) (r : Request)
  : option string :=
  match transports with
  | [] => None
  | t :: rest =>
      match t r with
      | Some tok => Some tok
      | None => first_match rest r
      end
  end.

Definition extract_spec (r : Request) : option string :=
  first_match [transport_bearer; transport_custom; transport_cookie] r.

(** ** The client library's types (github.com/ory/kratos-client-go)

    Only the fields the package reads; the accessors keep the library's
    names. *)

Record VerifiableIdentityAddress := {
  va_Value : string;
  va_Via : string;
  va_Verified : bool
}.

Record RecoveryIdentityAddress := {
  ra_Value : string;
  ra_Via : string
}.

(** Both address types have a [GetVia] accessor. *)
Class HasVia (A : Type) := GetVia : A -> string.
#[global] Instance VerifiableIdentityAddress_via : HasVia VerifiableIdentityAddress := va_Via.
#[global] Instance RecoveryIdentityAddress_via : HasVia RecoveryIdentityAddress := ra_Via.

Definition GetVerified (a : VerifiableIdentityAddress) : bool := va_Verified a.

Record Identity := {
  identity_Id : string;
  identity_Traits : GoValue;
  identity_VerifiableAddresses : list VerifiableIdentityAddress;
  identity_RecoveryAddresses : list RecoveryIdentityAddress;
  identity_CreatedAt : Time;
  identity_UpdatedAt : Time
}.

Definition GetId (i : Identity) : string := identity_Id i.
Definition GetTraits (i : Identity) : GoValue := identity_Traits i.
Definition GetVerifiableAddresses (i : Identity) := identity_VerifiableAddresses i.
Definition GetRecoveryAddresses (i : Identity) := identity_RecoveryAddresses i.
Definition GetCreatedAt (i : Identity) : Time := identity_CreatedAt i.
Definition GetUpdatedAt (i : Identity) : Time := identity_UpdatedAt i.

(** [Active] is a [*bool] in the library; [GetActive] reads a nil pointer
    as [false]. *)
Record Session := {
  session_Active : option bool;
  session_Identity : Identity
}.

Definition GetActive (s : Session) : bool := default false (session_Active s).

(** [http.Response]. *)
Record Response := { StatusCode : Z }.

Definition StatusOK : Z := 200.
Definition StatusUnauthorized : Z := 401.
Definition StatusNotFound : Z := 404.

(** ** Errors

    An [error] is either one the client library produced or one built by
    [fmt.Errorf]: with a fixed message, with a wrapped cause ([%w]) or with a
    status code ([%d]) after a fixed prefix. *)
Inductive error :=
| ClientError (msg : string)
| Errorf (msg : string)
| ErrorfW (prefix : string) (cause : error)
| ErrorfD (prefix : string) (code : Z).

(** [err.Error()]. *)
Fixpoint Error (e : error) : string :=
  match e with
  | ClientError msg => msg
  | Errorf msg => msg
  | ErrorfW prefix cause => prefix +:+ Error cause
  | ErrorfD prefix code => prefix +:+ pretty code
  end.

(** What [Execute()] hands back: [Failed err] when [err != nil] (the callers
    then read nothing else), otherwise the decoded body and the response. *)
Inductive ApiReturn (T : Type) :=
| Failed (err : error)
| Returned (v : T) (resp : Response).
Arguments Failed {T} err.
Arguments Returned {T} v resp.

(** ** The remote identity provider and the effects of the package *)

(** What the package does to the outside: calls to the provider, a response
    written with [http.Error], the next handler served. *)
Inductive Event :=
| Call_ToSession (sessionToken : string)
| Call_GetIdentity (id : string)
| Call_UpdateIdentity (id : string) (traits : gmap string GoValue)
| Http_Error (msg : string) (code : Z)
| Next_ServeHTTP (r : Request).

(** [client.APIClient] over a provider whose state has type [R]. *)
Record APIClient (R : Type) := {
  FrontendAPI_ToSession : string -> R -> ApiReturn Session * R;
  IdentityAPI_GetIdentity : string -> R -> ApiReturn Identity * R;
  IdentityAPI_UpdateIdentity :
    string -> gmap string GoValue -> R -> ApiReturn Identity * R
}.
Arguments FrontendAPI_ToSession {R} _ _ _.
Arguments IdentityAPI_GetIdentity {R} _ _ _.
Arguments IdentityAPI_UpdateIdentity {R} _ _ _ _.

Record KratosClient (R : Type) := {
  admin : APIClient R;
  public : APIClient R
}.
Arguments admin {R} _.
Arguments public {R} _.

Record World (R : Type) := {
  remote : R;
  trace : list Event
}.
Arguments remote {R} _.
Arguments trace {R} _.

(** Computations that act on the world. *)
Definition M (R A : Type) : Type := World R -> A * World R.

#[global] Instance M_ret {R} : MRet (M R) := fun A a w => (a, w).
#[global] Instance M_bind {R} : MBind (M R) :=
  fun A B f m w => let '(a, w') := m w in f a w'.

(** The world once [e] has happened and left the provider in state [st]. *)
Definition after {R} (w : World R) (e : Event) (st : R) : World R :=
  {| remote := st; trace := trace w ++ [e] |}.

Definition emit {R} (e : Event) : M R unit :=
  fun w => (tt, after w e (remote w)).

(** One remote call: logged, then answered by the provider. *)
Definition call {R T} (e : Event) (op : R -> ApiReturn T * R) : M R (ApiReturn T) :=
  fun w =>
    let '(reply, st) := op (remote w) in
    (reply, after w e st).

(** Go's result pair: a [KratosUser] pointer (possibly nil) and an [error]. *)
Definition UserResult : Type := option KratosUser * option error.

Section Client.
Context {R : Type}.
Variable k : KratosClient R.

(** The two address scans of [isEmailVerified], each a [for ... range]
    loop that returns at the first hit. *)
Fixpoint scanVerifiable (addresses : list VerifiableIdentityAddress) : bool :=
  match addresses with
  | [] => false
  | addr :: rest =>
      if String.eqb (GetVia addr) "email" && GetVerified addr then true
      else scanVerifiable rest
  end.

Fixpoint scanRecovery (addresses : list RecoveryIdentityAddress) : bool :=
  match addresses with
  | [] => false
  | addr :: rest =>
      if String.eqb (GetVia addr) "email" then true else scanRecovery rest
  end.

Definition isEmailVerified (userID : string) : M R bool :=
  reply ← call (Call_GetIdentity userID) (IdentityAPI_GetIdentity (admin k) userID);
  match reply with
  | Failed _ => mret false
  | Returned identity resp =>
      if negb (StatusCode resp =? StatusOK) then mret false
      else if scanVerifiable (GetVerifiableAddresses identity) then mret true
      else if scanRecovery (GetRecoveryAddresses identity) then mret true
      else mret false
  end.

(** The block both [ValidateSession] and [GetUser] run on the user they
    are building: [if traits := ...GetTraits(); traits != nil { ... }]. *)
Definition withTraits (user : KratosUser) (traits : GoValue) : KratosUser :=
  match traits with
  | VNil => user
  | _ =>
      {| ID := ID user;
         Email := getStringFromTraits traits "email";
         Username := getStringFromTraits traits "username";
         FirstName := getStringFromTraits traits "first_name";
         LastName := getStringFromTraits traits "last_name";
         Phone := getStringFromTraits traits "phone";
         SubscriptionPlan := getStringFromTraits traits "subscription_plan";
         Avatar := getStringFromTraits traits "avatar";
         EmailVerified := EmailVerified user;
         Active := Active user;
         CreatedAt := CreatedAt user;
         UpdatedAt := UpdatedAt user;
         Traits := traits |}
  end.

Definition withEmailVerified (user : KratosUser) (b : bool) : KratosUser :=
  {| ID := ID user; Email := Email user; Username := Username user;
     FirstName := FirstName user; LastName := LastName user;
     Phone := Phone user; SubscriptionPlan := SubscriptionPlan user;
     Avatar := Avatar user; EmailVerified := b; Active := Active user;
     CreatedAt := CreatedAt user; UpdatedAt := UpdatedAt user;
     Traits := Traits user |}.

(** [&KratosUser{ID: ..., Active: ..., CreatedAt: ..., UpdatedAt: ...}]:
    the other fields are zero. *)
Definition newUser (id : string) (active : bool) (created updated : Time) : KratosUser :=
  {| ID := id; Email := ""; Username := ""; FirstName := ""; LastName := "";
     Phone := ""; SubscriptionPlan := ""; Avatar := ""; EmailVerified := false;
     Active := active; CreatedAt := created; UpdatedAt := updated;
     Traits := VNil |}.

Definition ValidateSession (sessionToken : string) : M R UserResult :=
  if String.eqb sessionToken "" then
    mret (None, Some (Errorf "session token is required"))
  else
    reply ← call (Call_ToSession sessionToken)
                 (FrontendAPI_ToSession (public k) sessionToken);
    match reply with
    | Failed err => mret (None, Some (ErrorfW "session validation failed: " err))
    | Returned session resp =>
        if negb (StatusCode resp =? StatusOK) then
          mret (None, Some (ErrorfD "invalid session: status " (StatusCode resp)))
        else if negb (GetActive session) then
          mret (None, Some (Errorf "session is not active"))
        else
          let identity := session_Identity session in
          let user := newUser (GetId identity) (GetActive session)
                              (GetCreatedAt identity) (GetUpdatedAt identity) in
          let user := withTraits user (GetTraits identity) in
          verified ← isEmailVerified (GetId identity);
          mret (Some (withEmailVerified user verified), None)
    end.

Definition GetUser (userID : string) : M R UserResult :=
  reply ← call (Call_GetIdentity userID) (IdentityAPI_GetIdentity (admin k) userID);
  match reply with
  | Failed err => mret (None, Some (ErrorfW "failed to get user: " err))
  | Returned identity resp =>
      if negb (StatusCode resp =? StatusOK) then
        mret (None, Some (ErrorfD "user not found: status " (StatusCode resp)))
      else
        let user := newUser (GetId identity) false
                            (GetCreatedAt identity) (GetUpdatedAt identity) in
        let user := withTraits user (GetTraits identity) in
        verified ← isEmailVerified (GetId identity);
        mret (Some (withEmailVerified user verified), None)
  end.

Definition UpdateUser (userID : string) (traits : gmap string GoValue) : M R UserResult :=
  reply ← call (Call_UpdateIdentity userID traits)
               (IdentityAPI_UpdateIdentity (admin k) userID traits);
  match reply with
  | Failed err => mret (None, Some (ErrorfW "failed to update user: " err))
  | Returned identity resp =>
      if negb (StatusCode resp =? StatusOK) then
        mret (None, Some (ErrorfD "failed to update user: status " (StatusCode resp)))
      else GetUser (GetId identity)
  end.

(** ** The session middleware *)

(** An [http.Handler]; the [ResponseWriter] it writes to is part of the
    world. *)
Definition Handler : Type := Request -> M R unit.

(** [http.Error(w, msg, code)]. *)
Definition http_Error (msg : string) (code : Z) : M R unit :=
  emit (Http_Error msg code).

(** [next.ServeHTTP(w, r)]. *)
Definition ServeHTTP (next : Handler) (r : Request) : M R unit :=
  emit (Next_ServeHTTP r);; next r.

Definition SessionMiddleware (next : Handler) : Handler :=
  fun r =>
    let sessionToken := extractSessionToken r in
    if String.eqb sessionToken "" then
      http_Error "Session token required" StatusUnauthorized
    else
      '(user, err) ← ValidateSession sessionToken;
      match err with
      | Some _ => http_Error "Invalid session" StatusUnauthorized
      | None =>
          let ctx := WithValue (Ctx r) "user" (CtxUser user) in
          ServeHTTP next (WithContext r ctx)
      end.

End Client.

(** ** Reading the principal back from a context *)

(** [ctx.Value("user")] asserted to a [KratosUser] pointer. *)
Definition GetUserFromContext (ctx : Context) : option KratosUser * bool :=
  match Context_Value ctx "user" with
  | Some (CtxUser user) => (user, true)
  | _ => (None, false)
  end.

Definition RequireUser (ctx : Context) : UserResult :=
  let '(user, ok) := GetUserFromContext ctx in
  if negb ok then (None, Some (Errorf "user not found in context"))
  else (user, None).

(** ** Error kinds of the specification, read off the error values *)

(** [GetUser]'s two errors. *)
Definition is_user_not_found (e : error) : Prop :=
  exists code, e = ErrorfD "user not found: status " code.

Definition is_failed_to_get_user (e : error) : Prop :=
  exists cause, e = ErrorfW "failed to get user: " cause.

(** ** Providers to run the package against *)

(** A provider that gives the same answer to every call of an endpoint. *)
Definition scripted (sess : ApiReturn Session) (idn upd : ApiReturn Identity)
  : KratosClient unit :=
  let c := {| FrontendAPI_ToSession := fun _ st => (sess, st);
              IdentityAPI_GetIdentity := fun _ st => (idn, st);
              IdentityAPI_UpdateIdentity := fun _ _ st => (upd, st) |} in
  {| admin := c; public := c |}.

(** An in-memory provider: identities by id, sessions by token. An update
    replaces the traits of a stored identity by the bag it is given. *)
Record Store := {
  identities : gmap string Identity;
  sessions : gmap string Session
}.

(** The record stored under [id], served with that id and the given traits. *)
Definition serve (id : string) (i : Identity) (traits : GoValue) : Identity :=
  {| identity_Id := id;
     identity_Traits := traits;
     identity_VerifiableAddresses := identity_VerifiableAddresses i;
     identity_RecoveryAddresses := identity_RecoveryAddresses i;
     identity_CreatedAt := identity_CreatedAt i;
     identity_UpdatedAt := identity_UpdatedAt i |}.

Definition store_ToSession (token : string) (st : Store) : ApiReturn Session * Store :=
  match sessions st !! token with
  | Some s => (Returned s {| StatusCode := StatusOK |}, st)
  | None => (Failed (ClientError "401 Unauthorized"), st)
  end.

Definition store_GetIdentity (id : string) (st : Store) : ApiReturn Identity * Store :=
  match identities st !! id with
  | Some i => (Returned (serve id i (identity_Traits i)) {| StatusCode := StatusOK |}, st)
  | None => (Failed (ClientError "404 Not Found"), st)
  end.

Definition store_UpdateIdentity (id : string) (traits : gmap string GoValue) (st : Store)
  : ApiReturn Identity * Store :=
  match identities st !! id with
  | Some i =>
      let i' := serve id i (VMap traits) in
      (Returned i' {| StatusCode := StatusOK |},
       {| identities := <[id := i']> (identities st); sessions := sessions st |})
  | None => (Failed (ClientError "404 Not Found"), st)
  end.

Definition memory : KratosClient Store :=
  let c := {| FrontendAPI_ToSession := store_ToSession;
              IdentityAPI_GetIdentity := store_GetIdentity;
              IdentityAPI_UpdateIdentity := store_UpdateIdentity |} in
  {| admin := c; public := c |}.

(** The provider in state [st] serves [id]: a get-identity call for it
    returns, with status 200, a record of that id with those traits. *)
Definition serves {R} (c : APIClient R) (id : string) (traits : GoValue) (st : R) : Prop :=
  exists stored resp st',
    IdentityAPI_GetIdentity c id st = (Returned stored resp, st')
    /\ StatusCode resp = StatusOK
    /\ GetId stored = id
    /\ GetTraits stored = traits.

(** Modelled from the spec: the remote provider's side of update_identity,
    which is no code of the package ("replaces traits wholesale (not a
    patch)"). Once the provider has answered an update of [id] with status
    200, the record it answers with has that id and it serves [id] with
    exactly the traits it was given; and reading an identity changes nothing
    of what it serves. *)
Definition replaces_traits {R} (c : APIClient R) : Prop :=
  (forall id traits st updated resp st',
      IdentityAPI_UpdateIdentity c id traits st = (Returned updated resp, st') ->
      StatusCode resp = StatusOK ->
      GetId updated = id /\ serves c id (VMap traits) st')
  /\ (forall id traits id' st reply st',
      IdentityAPI_GetIdentity c id' st = (reply, st') ->
      serves c id traits st -> serves c id traits st').

(** The seven recognised trait keys with the user field each one fills. *)
Definition recognized : list (string * (KratosUser -> string)) :=
  [("email", Email); ("username", Username); ("first_name", FirstName);
   ("last_name", LastName); ("phone", Phone);
   ("subscription_plan", SubscriptionPlan); ("avatar", Avatar)].

(** [user] is the projection of the trait bag [traits]: it keeps the bag,
    and each recognised field holds the string stored under its key, or the
    empty string when the key is absent or holds something else. *)
Definition projects (user : KratosUser) (traits : gmap string GoValue) : Prop :=
  Traits user = VMap traits
  /\ forall key field,
      In (key, field) recognized ->
      field user = match traits !! key with
                   | Some (VString s) => s
                   | _ => ""
                   end.

(** ** Reading a trace *)

(** The requests handed to the next handler, in order. *)
Definition served (tr : list Event) : list Request :=
  omap (fun e => match e with Next_ServeHTTP r => Some r | _ => None end) tr.

(** The error responses written, in order. *)
Definition written (tr : list Event) : list (string * Z) :=
  omap (fun e => match e with Http_Error msg code => Some (msg, code) | _ => None end) tr.

(** A handler that does nothing. *)
Definition idle {R} : Request -> M R unit := fun _ => mret tt.

(** ** Sample data *)

Definition start {R} (st : R) : World R := {| remote := st; trace := [] |}.

Definition request (h : list (string * list string)) (cs : list Cookie) : Request :=
  {| Header := list_to_map h; Cookies := cs; Ctx := [] |}.

Definition sample_identity (id : string) (traits : GoValue) : Identity :=
  {| identity_Id := id; identity_Traits := traits;
     identity_VerifiableAddresses := []; identity_RecoveryAddresses := [];
     identity_CreatedAt := 0; identity_UpdatedAt := 0 |}.

Definition ok : Response := {| StatusCode := StatusOK |}.

(** A request that presents all three transports at once. *)
Definition request_all_three : Request :=
  request [("Authorization", ["Bearer tokX"]); ("X-Session-Token", ["tokY"])]
          [{| Name := "ory_kratos_session"; Value := "tokZ" |}].

(** A request with a Basic [Authorization] header and a session header. *)
Definition request_basic_auth : Request :=
  request [("Authorization", ["Basic dXNlcjpwYXNz"]); ("X-Session-Token", ["tokY"])] [].

Definition sample_traits : gmap string GoValue :=
  {[ "email" := VString "a@b.com"; "age" := VNumber 41 ]}.

Definition not_found : ApiReturn Identity := Failed (ClientError "404 Not Found").

Definition unauthorized : ApiReturn Session := Failed (ClientError "401 Unauthorized").

Definition session_of (active : bool) (i : Identity) : Session :=
  {| session_Active := Some active; session_Identity := i |}.

(** The identity of the specification's scenario: id ["u1"], one trait, no
    verifiable or recovery address. *)
Definition identity_u1 : Identity :=
  sample_identity "u1" (VMap {[ "email" := VString "a@b.com" ]}).

Definition provider_u1 : KratosClient unit :=
  scripted (Returned (session_of true identity_u1) ok) (Returned identity_u1 ok) not_found.

(** A provider whose session is no longer active, served with status 200. *)
Definition provider_inactive : KratosClient unit :=
  scripted (Returned (session_of false identity_u1) ok) (Returned identity_u1 ok) not_found.

(** A provider whose active session carries no identity: the payload
    decodes to the zero [Identity], whose id is empty. *)
Definition provider_without_id : KratosClient unit :=
  scripted (Returned (session_of true (sample_identity "" VNil)) ok)
           not_found not_found.

(** A provider that answers a get-identity call with the given status and
    no client error. *)
Definition provider_status (code : Z) : KratosClient unit :=
  scripted unauthorized (Returned identity_u1 {| StatusCode := code |}) not_found.

(** A provider that knows no identity. *)
Definition provider_down : KratosClient unit :=
  scripted unauthorized not_found not_found.

Definition identity_u2 : Identity :=
  {| identity_Id := "u2"; identity_Traits := VNil;
     identity_VerifiableAddresses :=
       [{| va_Value := "c@d.com"; va_Via := "email"; va_Verified := true |}];
     identity_RecoveryAddresses := [];
     identity_CreatedAt := 0; identity_UpdatedAt := 0 |}.

Definition provider_u2 : KratosClient unit :=
  scripted unauthorized (Returned identity_u2 ok) not_found.

Definition sample_store : Store :=
  {| identities := {[ "u1" := identity_u1 ]};
     sessions := {[ "abc" := session_of true identity_u1 ]} |}.

Definition new_traits : gmap string GoValue :=
  {[ "email" := VString "new@b.com"; "first_name" := VString "Ann" ]}.

Definition request_anonymous : Request := request [] [].

Definition request_abc : Request := request [("X-Session-Token", ["abc"])] [].

(** What [isEmailVerified] makes of the reply to its lookup. *)
Definition verdict (reply : ApiReturn Identity) : bool :=
  match reply with
  | Failed _ => false
  | Returned identity resp =>
      (StatusCode resp =? StatusOK)
      && (scanVerifiable (GetVerifiableAddresses identity)
          || scanRecovery (GetRecoveryAddresses identity))
  end.

(** ** The other operations of the client: delete, list sessions, revoke *)

Definition StatusNoContent : Z := 204.

(** The three remaining calls the package makes on [k.admin.IdentityAPI].
    [DeleteIdentity] and [DisableSession] hand back a response and an error
    only. *)
Record AdminAPI (R : Type) := {
  IdentityAPI_DeleteIdentity : string -> R -> ApiReturn unit * R;
  IdentityAPI_ListIdentitySessions : string -> R -> ApiReturn (list Session) * R;
  IdentityAPI_DisableSession : string -> R -> ApiReturn unit * R
}.
Arguments IdentityAPI_DeleteIdentity {R} _ _ _.
Arguments IdentityAPI_ListIdentitySessions {R} _ _ _.
Arguments IdentityAPI_DisableSession {R} _ _ _.

(** These three thread the provider's state only. *)
Definition DeleteUser {R} (a : AdminAPI R) (userID : string) (st : R)
  : option error * R :=
  let '(reply, st') := IdentityAPI_DeleteIdentity a userID st in
  match reply with
  | Failed err => (Some (ErrorfW "failed to delete user: " err), st')
  | Returned _ resp =>
      if negb (StatusCode resp =? StatusNoContent) then
        (Some (ErrorfD "failed to delete user: status " (StatusCode resp)), st')
      else (None, st')
  end.

(** The result slice is a list; the nil slice of the error returns is the
    empty list. *)
Definition ListUserSessions {R} (a : AdminAPI R) (userID : string) (st : R)
  : (list Session * option error) * R :=
  let '(reply, st') := IdentityAPI_ListIdentitySessions a userID st in
  match reply with
  | Failed err => (([], Some (ErrorfW "failed to list sessions: " err)), st')
  | Returned sessions resp =>
      if negb (StatusCode resp =? StatusOK) then
        (([], Some (ErrorfD "failed to list sessions: status " (StatusCode resp))), st')
      else ((sessions, None), st')
  end.

Definition RevokeSession {R} (a : AdminAPI R) (sessionID : string) (st : R)
  : option error * R :=
  let '(reply, st') := IdentityAPI_DisableSession a sessionID st in
  match reply with
  | Failed err => (Some (ErrorfW "failed to revoke session: " err), st')
  | Returned _ resp =>
      if negb (StatusCode resp =? StatusNoContent) then
        (Some (ErrorfD "failed to revoke session: status " (StatusCode resp)), st')
      else (None, st')
  end.

(** An admin endpoint set that gives the same answer to every call. *)
Definition scripted_admin (del : ApiReturn unit) (lst : ApiReturn (list Session))
    (dis : ApiReturn unit) : AdminAPI unit :=
  {| IdentityAPI_DeleteIdentity := fun _ st => (del, st);
     IdentityAPI_ListIdentitySessions := fun _ st => (lst, st);
     IdentityAPI_DisableSession := fun _ st => (dis, st) |}.

(** ** The registration hook (configs/kratos/hooks/registration.jsonnet)

    A Jsonnet function from the hook context to the webhook body. JSON
    values are [GoValue]s ([VNil] is null, [VMap] an object); [None] is a
    Jsonnet runtime error, which leaves the hook without a body. *)

(** [e.f]: an error unless [e] is an object that has the field. *)
Definition jsonnet_field (e : GoValue) (f : string) : option GoValue :=
  match e with
  | VMap o => o !! f
  | _ => None
  end.

(** [std.objectHas(o, f)]: an error unless [o] is an object. *)
Definition jsonnet_objectHas (o : GoValue) (f : string) : option bool :=
  match o with
  | VMap m => Some (match m !! f with Some _ => true | None => false end)
  | _ => None
  end.

(** [if std.objectHas(o, f) then o.f else dflt]. *)
Definition jsonnet_field_or (o : GoValue) (f : string) (dflt : GoValue)
  : option GoValue :=
  has ← jsonnet_objectHas o f;
  if has : bool then jsonnet_field o f else Some dflt.

Definition registration (ctx : GoValue) : option GoValue :=
  identity ← jsonnet_field ctx "identity";
  identity_id ← jsonnet_field identity "id";
  traits ← jsonnet_field identity "traits";
  email ← jsonnet_field traits "email";
  username ← jsonnet_field traits "username";
  first_name ← jsonnet_field_or traits "first_name" (VString "");
  last_name ← jsonnet_field_or traits "last_name" (VString "");
  subscription_plan ← jsonnet_field_or traits "subscription_plan" (VString "free");
  Some (VMap (list_to_map
    [("identity_id", identity_id); ("email", email); ("username", username);
     ("first_name", first_name); ("last_name", last_name);
     ("subscription_plan", subscription_plan)])).

(** The hook context of an identity with the given id and traits. *)
Definition hook_ctx (id : GoValue) (traits : gmap string GoValue) : GoValue :=
  VMap {[ "identity" := VMap {[ "id" := id; "traits" := VMap traits ]} ]}.

(** A request whose Bearer header is empty although its session header
    carries a token. *)
Definition request_empty_bearer : Request :=
  request [("Authorization", ["Bearer "]); ("X-Session-Token", ["abc"])] [].

(** A provider whose session payload and identity record disagree: the
    session carries [identity_u1], the admin endpoint serves [identity_u2]. *)
Definition provider_two_views : KratosClient unit :=
  scripted (Returned (session_of true identity_u1) ok) (Returned identity_u2 ok) not_found.

(** A provider that accepts updates and then cannot serve the identity. *)
Definition provider_update_only : KratosClient unit :=
  scripted unauthorized not_found (Returned identity_u1 ok).

(** [identity_u2] with one more verifiable address in front and a recovery
    address. *)
Definition identity_u2_more : Identity :=
  {| identity_Id := "u2"; identity_Traits := VNil;
     identity_VerifiableAddresses :=
       [{| va_Value := "+100"; va_Via := "sms"; va_Verified := false |};
        {| va_Value := "c@d.com"; va_Via := "email"; va_Verified := true |}];
     identity_RecoveryAddresses := [{| ra_Value := "c@d.com"; ra_Via := "email" |}];
     identity_CreatedAt := 0; identity_UpdatedAt := 0 |}.

Definition store_u2 : Store :=
  {| identities := {[ "u2" := identity_u2 ]}; sessions := ∅ |}.

Definition store_u2_more : Store :=
  {| identities := {[ "u2" := identity_u2_more ]}; sessions := ∅ |}.

(** The inbound request of the scenario, with a context that already holds
    a request id and a stale ["user"] value. *)
Definition request_abc_ctx : Request :=
  WithContext request_abc
    (WithValue (WithValue [] "user" (CtxOther (VString "stale")))
               "request_id" (CtxOther (VString "r-17"))).

Definition hook_traits : gmap string GoValue :=
  {[ "email" := VString "a@b.com"; "username" := VString "ann";
     "first_name" := VString "Ann" ]}.

(** * Properties *)

(** ** Strings *)

Lemma HasPrefix_app (p x : string) : HasPrefix (p +:+ x) p = true.
Proof.
  unfold HasPrefix. induction p as [|a p IH].
  { change ("" +:+ x) with x. destruct x; reflexivity. }
  change (String a p +:+ x) with (String a (p +:+ x)). cbn [String.prefix].
  destruct (Ascii.ascii_dec a a); [exact IH | congruence].
Qed.

Lemma drop_chars_app (p x : string) : drop_chars (String.length p) (p +:+ x) = x.
Proof. induction p as [|a p IH]; [reflexivity | exact IH]. Qed.

Lemma TrimPrefix_app (p x : string) : TrimPrefix (p +:+ x) p = x.
Proof. unfold TrimPrefix. rewrite HasPrefix_app. apply drop_chars_app. Qed.

Lemma eqb_empty_false (s : string) : s <> "" -> String.eqb s "" = false.
Proof. intros H. apply String.eqb_neq. exact H. Qed.

(** ** The credential extractor *)

Lemma extractSessionToken_spec (r : Request) :
  extractSessionToken r = default "" (extract_spec r).
Proof.
  unfold extractSessionToken, extract_spec, first_match,
    transport_bearer, transport_custom, transport_cookie.
  set (auth := Header_Get (Header r) "Authorization").
  set (token := Header_Get (Header r) "X-Session-Token").
  destruct (HasPrefix auth "Bearer ") eqn:Hp.
  - destruct (String.eqb_spec auth "") as [He|_]; [|reflexivity].
    rewrite He in Hp. discriminate Hp.
  - rewrite andb_false_r.
    destruct (String.eqb token ""); cbn [negb]; [|reflexivity].
    destruct (Request_Cookie r "ory_kratos_session"); reflexivity.
Qed.

(** C5. A request whose [Authorization] header is ["Bearer " ++ X] yields
    [X], whatever its [X-Session-Token] header and its cookies are; and in
    general the extractor returns the first credential that the three
    transports yield in the order Bearer header, [X-Session-Token] header,
    [ory_kratos_session] cookie (the empty string when none does). *)
Theorem extractSessionToken_precedence (r : Request) :
  (forall X, Header_Get (Header r) "Authorization" = "Bearer " +:+ X ->
             extractSessionToken r = X)
  /\ extractSessionToken r = default "" (extract_spec r)
  /\ (forall X, transport_bearer r = Some X -> extractSessionToken r = X)
  /\ (forall Y, transport_bearer r = None -> transport_custom r = Some Y ->
                extractSessionToken r = Y)
  /\ (forall Z, transport_bearer r = None -> transport_custom r = None ->
                transport_cookie r = Some Z -> extractSessionToken r = Z)
  /\ (transport_bearer r = None -> transport_custom r = None ->
      transport_cookie r = None -> extractSessionToken r = "").
Proof.
  rewrite extractSessionToken_spec. unfold extract_spec, first_match.
  repeat split.
  - intros X HX. unfold transport_bearer. rewrite HX, HasPrefix_app, TrimPrefix_app.
    reflexivity.
  - intros X ->. reflexivity.
  - intros Y -> ->. reflexivity.
  - intros Z -> -> ->. reflexivity.
  - intros -> -> ->. reflexivity.
Qed.

Lemma extractSessionToken_precedence_witness :
  extractSessionToken request_all_three = "tokX".
Proof.
  apply (proj1 (extractSessionToken_precedence request_all_three) "tokX").
  reflexivity.
Defined.

(** C10. When the [Authorization] header is present but does not start with
    ["Bearer "], the extractor goes on to the [X-Session-Token] header and
    then to the [ory_kratos_session] cookie. *)
Theorem extractSessionToken_falls_through (r : Request) :
  Header_Get (Header r) "Authorization" <> "" ->
  HasPrefix (Header_Get (Header r) "Authorization") "Bearer " = false ->
  (forall Y, Header_Get (Header r) "X-Session-Token" = Y -> Y <> "" ->
             extractSessionToken r = Y)
  /\ (forall c, Header_Get (Header r) "X-Session-Token" = "" ->
                Request_Cookie r "ory_kratos_session" = Some c ->
                extractSessionToken r = Value c)
  /\ (Header_Get (Header r) "X-Session-Token" = "" ->
      Request_Cookie r "ory_kratos_session" = None ->
      extractSessionToken r = "").
Proof.
  intros _ Hp. unfold extractSessionToken. rewrite Hp, andb_false_r.
  repeat split.
  - intros Y -> HY. rewrite (eqb_empty_false Y HY). reflexivity.
  - intros c -> ->. reflexivity.
  - intros -> ->. reflexivity.
Qed.

Lemma extractSessionToken_falls_through_witness :
  extractSessionToken request_basic_auth = "tokY".
Proof.
  refine (proj1 (extractSessionToken_falls_through request_basic_auth _ _) "tokY" _ _).
  - vm_compute. discriminate.
  - reflexivity.
  - reflexivity.
  - discriminate.
Defined.

(** ** The trait projector *)

(** C6. [getStringFromTraits] is defined on every bag and key: it is the
    string stored under the key when the bag is a string-keyed map holding
    a string there, and the empty string in each of the other cases (nil
    bag, bag of another shape, key absent, value of another type), which
    between them cover every input. *)
Theorem getStringFromTraits_total (traits : GoValue) (key : string) :
  (traits = VNil -> getStringFromTraits traits key = "")
  /\ ((forall m, traits <> VMap m) -> getStringFromTraits traits key = "")
  /\ (forall m, traits = VMap m -> m !! key = None ->
                getStringFromTraits traits key = "")
  /\ (forall m v, traits = VMap m -> m !! key = Some v ->
                  (forall s, v <> VString s) ->
                  getStringFromTraits traits key = "")
  /\ (forall m s, traits = VMap m -> m !! key = Some (VString s) ->
                  getStringFromTraits traits key = s)
  /\ (traits = VNil
      \/ (forall m, traits <> VMap m)
      \/ (exists m, traits = VMap m /\
            (m !! key = None
             \/ (exists v, m !! key = Some v /\ forall s, v <> VString s)
             \/ (exists s, m !! key = Some (VString s))))).
Proof.
  repeat split.
  - intros ->. reflexivity.
  - intros Hshape. destruct traits; try reflexivity. destruct (Hshape m eq_refl).
  - intros m -> Hk. cbn. rewrite Hk. reflexivity.
  - intros m v -> Hk Hv. cbn. rewrite Hk.
    destruct v; try reflexivity. destruct (Hv s eq_refl).
  - intros m s -> Hk. cbn. rewrite Hk. reflexivity.
  - destruct traits as [| | | | |m];
      [left; reflexivity | try (right; left; intros m' Hm; discriminate Hm) ..].
    right. right. exists m. split; [reflexivity|].
    destruct (m !! key) as [v|] eqn:Hk; [|left; reflexivity].
    right. destruct v;
      try (left; eexists; split; [reflexivity|]; intros s' Hs; discriminate Hs).
    right. exists s. reflexivity.
Qed.

Lemma getStringFromTraits_total_witness :
  getStringFromTraits (VMap sample_traits) "email" = "a@b.com"
  /\ getStringFromTraits (VMap sample_traits) "age" = ""
  /\ getStringFromTraits (VMap sample_traits) "phone" = ""
  /\ getStringFromTraits (VString "a@b.com") "email" = ""
  /\ getStringFromTraits VNil "email" = "".
Proof.
  pose proof (getStringFromTraits_total (VMap sample_traits) "email")
    as (_ & _ & _ & _ & Hstr & _).
  pose proof (getStringFromTraits_total (VMap sample_traits) "age")
    as (_ & _ & _ & Hnum & _).
  pose proof (getStringFromTraits_total (VMap sample_traits) "phone")
    as (_ & _ & Habs & _).
  pose proof (getStringFromTraits_total (VString "a@b.com") "email")
    as (_ & Hshape & _).
  pose proof (getStringFromTraits_total VNil "email") as (Hnil & _).
  refine (conj _ (conj _ (conj _ (conj _ _)))).
  - apply (Hstr sample_traits); reflexivity.
  - apply (Hnum sample_traits (VNumber 41)); [reflexivity | reflexivity |].
    intros s Hs. discriminate Hs.
  - apply (Habs sample_traits); reflexivity.
  - apply Hshape. intros m Hm. discriminate Hm.
  - apply Hnil. reflexivity.
Defined.

(** ** The verification resolver *)

Lemma scanVerifiable_Exists (l : list VerifiableIdentityAddress) :
  scanVerifiable l = true <->
  Exists (fun a => GetVia a = "email" /\ GetVerified a = true) l.
Proof.
  induction l as [|a l IH]; cbn [scanVerifiable].
  - split; [discriminate | intros H; inversion H].
  - destruct (String.eqb_spec (GetVia a) "email") as [Hv|Hv];
      destruct (GetVerified a) eqn:Hf; cbn [andb].
    + split; [intros _; left; split; assumption | reflexivity].
    + rewrite IH. split; [intros H; right; exact H|].
      intros H. inversion H as [? ? [_ Hc]|? ? Hl]; subst; [congruence | exact Hl].
    + rewrite IH. split; [intros H; right; exact H|].
      intros H. inversion H as [? ? [Hc _]|? ? Hl]; subst; [contradiction | exact Hl].
    + rewrite IH. split; [intros H; right; exact H|].
      intros H. inversion H as [? ? [Hc _]|? ? Hl]; subst; [contradiction | exact Hl].
Qed.

Lemma scanRecovery_Exists (l : list RecoveryIdentityAddress) :
  scanRecovery l = true <-> Exists (fun a => GetVia a = "email") l.
Proof.
  induction l as [|a l IH]; cbn [scanRecovery].
  - split; [discriminate | intros H; inversion H].
  - destruct (String.eqb_spec (GetVia a) "email") as [Hv|Hv].
    + split; [intros _; left; exact Hv | reflexivity].
    + rewrite IH. split; [intros H; right; exact H|].
      intros H. inversion H as [? ? Hc|? ? Hl]; subst; [contradiction | exact Hl].
Qed.

(** Unfolds the monadic plumbing of the package's operations. *)
Ltac run :=
  cbv beta delta [mbind M_bind mret M_ret call emit http_Error ServeHTTP] in *.

(** Closes one branch of a case analysis on the outcome of a call. *)
Ltac settle :=
  repeat first [ intro
               | match goal with |- _ /\ _ => split | |- _ <-> _ => split end ];
  repeat match goal with
         | H : _ /\ _ |- _ => destruct H
         | H : _ \/ _ |- _ => destruct H
         | H : exists _, _ |- _ => destruct H
         | H : is_Some None |- _ => destruct H as [? H]; discriminate H
         end;
  simplify_eq; try done; try congruence; try (eexists; reflexivity); eauto 10.

Section ClientProperties.
Context {R : Type}.
Variable k : KratosClient R.

Lemma isEmailVerified_failed userID w err st :
  IdentityAPI_GetIdentity (admin k) userID (remote w) = (Failed err, st) ->
  isEmailVerified k userID w = (false, after w (Call_GetIdentity userID) st).
Proof. intros H. unfold isEmailVerified. run. rewrite H. reflexivity. Qed.

Lemma isEmailVerified_returned userID w identity resp st :
  IdentityAPI_GetIdentity (admin k) userID (remote w) = (Returned identity resp, st) ->
  isEmailVerified k userID w =
    ((StatusCode resp =? StatusOK)
     && (scanVerifiable (GetVerifiableAddresses identity)
         || scanRecovery (GetRecoveryAddresses identity)),
     after w (Call_GetIdentity userID) st).
Proof.
  intros H. unfold isEmailVerified. run. rewrite H.
  destruct (StatusCode resp =? StatusOK); cbn [negb andb]; [|reflexivity].
  destruct (scanVerifiable _); [reflexivity|].
  destruct (scanRecovery _); reflexivity.
Qed.

Lemma isEmailVerified_trace userID w :
  trace (isEmailVerified k userID w).2 = (trace w ++ [Call_GetIdentity userID])%list.
Proof.
  destruct (IdentityAPI_GetIdentity (admin k) userID (remote w)) as [[err|i resp] st] eqn:H.
  - rewrite (isEmailVerified_failed _ _ _ _ H). reflexivity.
  - rewrite (isEmailVerified_returned _ _ _ _ _ H). reflexivity.
Qed.

(** C3. Once the identity record has been fetched (no client error,
    status 200), [isEmailVerified] answers [true] exactly when the
    verifiable-address list has an entry with channel ["email"] whose
    verified flag is set, or the recovery-address list has an entry with
    channel ["email"]; otherwise it answers [false]. The recovery list
    decides only when the verifiable list has no such entry. *)
Theorem isEmailVerified_two_tier userID w identity resp st :
  IdentityAPI_GetIdentity (admin k) userID (remote w) = (Returned identity resp, st) ->
  StatusCode resp = StatusOK ->
  let tier1 := Exists (fun a => GetVia a = "email" /\ GetVerified a = true)
                      (GetVerifiableAddresses identity) in
  let tier2 := Exists (fun a => GetVia a = "email")
                      (GetRecoveryAddresses identity) in
  ((isEmailVerified k userID w).1 = true <-> tier1 \/ tier2)
  /\ ((isEmailVerified k userID w).1 = false <-> ~ tier1 /\ ~ tier2)
  /\ (tier1 -> (isEmailVerified k userID w).1 = true)
  /\ (~ tier1 -> ((isEmailVerified k userID w).1 = true <-> tier2)).
Proof.
  intros H Hs tier1 tier2. rewrite (isEmailVerified_returned _ _ _ _ _ H), Hs.
  cbn [fst]. change (StatusOK =? StatusOK) with true. cbn [andb].
  subst tier1 tier2.
  rewrite <- scanVerifiable_Exists, <- scanRecovery_Exists.
  destruct (scanVerifiable _), (scanRecovery _); cbn [orb];
    intuition congruence.
Qed.

(** C4. [isEmailVerified] returns a boolean on every input and answers
    [false] when the lookup fails: on a client error and on any status
    other than 200, whatever the body holds. *)
Theorem isEmailVerified_fails_closed userID w :
  (forall err st,
      IdentityAPI_GetIdentity (admin k) userID (remote w) = (Failed err, st) ->
      (isEmailVerified k userID w).1 = false)
  /\ (forall identity resp st,
      IdentityAPI_GetIdentity (admin k) userID (remote w) = (Returned identity resp, st) ->
      StatusCode resp <> StatusOK ->
      (isEmailVerified k userID w).1 = false)
  /\ (exists b w', isEmailVerified k userID w = (b, w')).
Proof.
  repeat split.
  - intros err st H. rewrite (isEmailVerified_failed _ _ _ _ H). reflexivity.
  - intros identity resp st H Hs. rewrite (isEmailVerified_returned _ _ _ _ _ H).
    cbn [fst]. apply Z.eqb_neq in Hs. rewrite Hs. reflexivity.
  - destruct (isEmailVerified k userID w) as [b w']. exists b, w'. reflexivity.
Qed.

(** ** Session validation *)

Lemma ValidateSession_empty w :
  ValidateSession k "" w = ((None, Some (Errorf "session token is required")), w).
Proof. reflexivity. Qed.

Lemma ValidateSession_failed tok w err st :
  tok <> "" ->
  FrontendAPI_ToSession (public k) tok (remote w) = (Failed err, st) ->
  ValidateSession k tok w =
    ((None, Some (ErrorfW "session validation failed: " err)),
     after w (Call_ToSession tok) st).
Proof.
  intros Ht H. unfold ValidateSession. rewrite (eqb_empty_false _ Ht).
  run. rewrite H. reflexivity.
Qed.

Lemma ValidateSession_status tok w session resp st :
  tok <> "" ->
  FrontendAPI_ToSession (public k) tok (remote w) = (Returned session resp, st) ->
  StatusCode resp <> StatusOK ->
  ValidateSession k tok w =
    ((None, Some (ErrorfD "invalid session: status " (StatusCode resp))),
     after w (Call_ToSession tok) st).
Proof.
  intros Ht H Hs. unfold ValidateSession. rewrite (eqb_empty_false _ Ht).
  run. rewrite H. apply Z.eqb_neq in Hs. rewrite Hs. reflexivity.
Qed.

Lemma ValidateSession_inactive tok w session resp st :
  tok <> "" ->
  FrontendAPI_ToSession (public k) tok (remote w) = (Returned session resp, st) ->
  StatusCode resp = StatusOK ->
  GetActive session = false ->
  ValidateSession k tok w =
    ((None, Some (Errorf "session is not active")), after w (Call_ToSession tok) st).
Proof.
  intros Ht H Hs Ha. unfold ValidateSession. rewrite (eqb_empty_false _ Ht).
  run. rewrite H, Hs, Ha. reflexivity.
Qed.

Lemma ValidateSession_accepted tok w session resp st :
  tok <> "" ->
  FrontendAPI_ToSession (public k) tok (remote w) = (Returned session resp, st) ->
  StatusCode resp = StatusOK ->
  GetActive session = true ->
  let identity := session_Identity session in
  let checked := isEmailVerified k (GetId identity) (after w (Call_ToSession tok) st) in
  ValidateSession k tok w =
    ((Some (withEmailVerified
              (withTraits (newUser (GetId identity) true
                                   (GetCreatedAt identity) (GetUpdatedAt identity))
                          (GetTraits identity))
              checked.1),
      None),
     checked.2).
Proof.
  intros Ht H Hs Ha identity checked. unfold ValidateSession.
  rewrite (eqb_empty_false _ Ht). run. rewrite H, Hs, Ha.
  change (StatusOK =? StatusOK) with true. cbn [negb].
  subst checked identity. destruct (isEmailVerified _ _ _). reflexivity.
Qed.

(** An accepted session comes with a user. *)
Lemma ValidateSession_user tok w :
  (ValidateSession k tok w).1.2 = None -> is_Some (ValidateSession k tok w).1.1.
Proof.
  destruct (String.eqb_spec tok "") as [->|Ht].
  { rewrite ValidateSession_empty. discriminate. }
  destruct (FrontendAPI_ToSession (public k) tok (remote w))
    as [[err|session resp] st] eqn:H.
  { rewrite (ValidateSession_failed _ _ _ _ Ht H). discriminate. }
  destruct (Z.eq_dec (StatusCode resp) StatusOK) as [Hs|Hs].
  2:{ rewrite (ValidateSession_status _ _ _ _ _ Ht H Hs). discriminate. }
  destruct (GetActive session) eqn:Ha.
  2:{ rewrite (ValidateSession_inactive _ _ _ _ _ Ht H Hs Ha). discriminate. }
  rewrite (ValidateSession_accepted _ _ _ _ _ Ht H Hs Ha). intros _. eexists. reflexivity.
Qed.

Lemma withTraits_ID user traits : ID (withTraits user traits) = ID user.
Proof. destruct traits; reflexivity. Qed.

(** C2. [ValidateSession] returns an error exactly when the token is empty,
    the client call fails, the status is not 200 or the session is not
    active; the user is then nil. With an empty token no call is made (the
    world is left as it was). An inactive session is rejected whatever the
    status; each cause has its own error. *)
Theorem ValidateSession_errors sessionToken w :
  let reply := (FrontendAPI_ToSession (public k) sessionToken (remote w)).1 in
  let res := (ValidateSession k sessionToken w).1 in
  (is_Some res.2 <->
     sessionToken = ""
     \/ (exists err, reply = Failed err)
     \/ (exists session resp, reply = Returned session resp /\ StatusCode resp <> StatusOK)
     \/ (exists session resp, reply = Returned session resp /\ GetActive session = false))
  /\ (is_Some res.2 -> res.1 = None)
  /\ (res.2 = None -> is_Some res.1)
  /\ (sessionToken = "" ->
      ValidateSession k sessionToken w =
        ((None, Some (Errorf "session token is required")), w))
  /\ (forall session resp,
        reply = Returned session resp -> GetActive session = false ->
        is_Some res.2 /\ res.1 = None)
  /\ (sessionToken <> "" ->
      (forall err, reply = Failed err ->
                   res.2 = Some (ErrorfW "session validation failed: " err))
      /\ (forall session resp,
            reply = Returned session resp -> StatusCode resp <> StatusOK ->
            res.2 = Some (ErrorfD "invalid session: status " (StatusCode resp)))
      /\ (forall session resp,
            reply = Returned session resp -> StatusCode resp = StatusOK ->
            GetActive session = false ->
            res.2 = Some (Errorf "session is not active"))).
Proof.
  intros reply res. subst reply res.
  destruct (String.eqb_spec sessionToken "") as [->|Ht].
  { rewrite ValidateSession_empty. cbn [fst snd]. settle. }
  destruct (FrontendAPI_ToSession (public k) sessionToken (remote w))
    as [[err|session resp] st] eqn:H; cbn [fst].
  { rewrite (ValidateSession_failed _ _ _ _ Ht H). cbn [fst snd]. settle. }
  destruct (Z.eq_dec (StatusCode resp) StatusOK) as [Hs|Hs].
  2:{ rewrite (ValidateSession_status _ _ _ _ _ Ht H Hs). cbn [fst snd]. settle. }
  destruct (GetActive session) eqn:Ha.
  2:{ rewrite (ValidateSession_inactive _ _ _ _ _ Ht H Hs Ha). cbn [fst snd]. settle. }
  rewrite (ValidateSession_accepted _ _ _ _ _ Ht H Hs Ha). cbn [fst snd]. settle.
Qed.

(** C1, as the code has it. The user of an accepted session carries the id
    of the identity in the provider's session payload, unchanged: it is
    non-empty exactly when the payload's id is. *)
Theorem ValidateSession_user_id sessionToken w :
  (ValidateSession k sessionToken w).1.2 = None ->
  exists user session resp st,
    (ValidateSession k sessionToken w).1.1 = Some user
    /\ FrontendAPI_ToSession (public k) sessionToken (remote w) = (Returned session resp, st)
    /\ ID user = GetId (session_Identity session)
    /\ (ID user <> "" <-> GetId (session_Identity session) <> "").
Proof.
  intros Hok.
  destruct (String.eqb_spec sessionToken "") as [->|Ht].
  { rewrite ValidateSession_empty in Hok. discriminate Hok. }
  destruct (FrontendAPI_ToSession (public k) sessionToken (remote w))
    as [[err|session resp] st] eqn:H.
  { rewrite (ValidateSession_failed _ _ _ _ Ht H) in Hok. discriminate Hok. }
  destruct (Z.eq_dec (StatusCode resp) StatusOK) as [Hs|Hs].
  2:{ rewrite (ValidateSession_status _ _ _ _ _ Ht H Hs) in Hok. discriminate Hok. }
  destruct (GetActive session) eqn:Ha.
  2:{ rewrite (ValidateSession_inactive _ _ _ _ _ Ht H Hs Ha) in Hok. discriminate Hok. }
  rewrite (ValidateSession_accepted _ _ _ _ _ Ht H Hs Ha). cbn [fst snd].
  eexists _, session, resp, st. split; [reflexivity|]. split; [reflexivity|].
  cbn [withEmailVerified ID]. rewrite withTraits_ID. cbn [newUser ID].
  split; [reflexivity | tauto].
Qed.

(** ** Reading and updating an identity *)

Lemma GetUser_failed userID w err st :
  IdentityAPI_GetIdentity (admin k) userID (remote w) = (Failed err, st) ->
  GetUser k userID w =
    ((None, Some (ErrorfW "failed to get user: " err)),
     after w (Call_GetIdentity userID) st).
Proof. intros H. unfold GetUser. run. rewrite H. reflexivity. Qed.

Lemma GetUser_status userID w identity resp st :
  IdentityAPI_GetIdentity (admin k) userID (remote w) = (Returned identity resp, st) ->
  StatusCode resp <> StatusOK ->
  GetUser k userID w =
    ((None, Some (ErrorfD "user not found: status " (StatusCode resp))),
     after w (Call_GetIdentity userID) st).
Proof.
  intros H Hs. unfold GetUser. run. rewrite H.
  apply Z.eqb_neq in Hs. rewrite Hs. reflexivity.
Qed.

Lemma GetUser_found userID w identity resp st :
  IdentityAPI_GetIdentity (admin k) userID (remote w) = (Returned identity resp, st) ->
  StatusCode resp = StatusOK ->
  let checked := isEmailVerified k (GetId identity) (after w (Call_GetIdentity userID) st) in
  GetUser k userID w =
    ((Some (withEmailVerified
              (withTraits (newUser (GetId identity) false
                                   (GetCreatedAt identity) (GetUpdatedAt identity))
                          (GetTraits identity))
              checked.1),
      None),
     checked.2).
Proof.
  intros H Hs checked. unfold GetUser. run. rewrite H, Hs.
  change (StatusOK =? StatusOK) with true. cbn [negb].
  subst checked. destruct (isEmailVerified _ _ _). reflexivity.
Qed.

(** The user both operations build: every recognised field is the
    projection of the identity's traits. *)
Lemma built_user_fields id active created updated traits verified :
  let user := withEmailVerified
                (withTraits (newUser id active created updated) traits) verified in
  Forall (fun kf => kf.2 user = getStringFromTraits traits kf.1) recognized
  /\ Traits user = traits /\ ID user = id.
Proof.
  destruct traits; cbn; (split; [repeat constructor | split; reflexivity]).
Qed.

Lemma error_messages_differ code cause :
  Error (ErrorfD "user not found: status " code)
  <> Error (ErrorfW "failed to get user: " cause).
Proof.
  cbn [Error]. intros Heq.
  apply (f_equal (fun s => match s with String c _ => Some c | EmptyString => None end)) in Heq.
  lazy in Heq. discriminate Heq.
Qed.

(** C8, as the code has it. [GetUser] fails with "user not found: status N"
    exactly when the client call returned without error and with a status
    N other than 200, whichever status that is, and with "failed to get
    user: ..." wrapping the cause exactly when the client call returned an
    error. The two errors differ, also as messages; the user is nil in both
    cases, and there is no other failure. *)
Theorem GetUser_errors userID w :
  let reply := (IdentityAPI_GetIdentity (admin k) userID (remote w)).1 in
  let res := (GetUser k userID w).1 in
  ((exists e, res.2 = Some e /\ is_user_not_found e) <->
   (exists identity resp, reply = Returned identity resp /\ StatusCode resp <> StatusOK))
  /\ ((exists e, res.2 = Some e /\ is_failed_to_get_user e) <->
      (exists cause, reply = Failed cause))
  /\ (forall identity resp,
        reply = Returned identity resp -> StatusCode resp <> StatusOK ->
        res = (None, Some (ErrorfD "user not found: status " (StatusCode resp))))
  /\ (forall cause,
        reply = Failed cause ->
        res = (None, Some (ErrorfW "failed to get user: " cause)))
  /\ (res.2 = None <->
      (exists identity resp, reply = Returned identity resp /\ StatusCode resp = StatusOK))
  /\ (is_Some res.2 -> res.1 = None)
  /\ (forall e1 e2, is_user_not_found e1 -> is_failed_to_get_user e2 ->
                    e1 <> e2 /\ Error e1 <> Error e2).
Proof.
  intros reply res. subst reply res. unfold is_user_not_found, is_failed_to_get_user.
  assert (Hdiff : forall e1 e2 : error,
             (exists code, e1 = ErrorfD "user not found: status " code) ->
             (exists cause, e2 = ErrorfW "failed to get user: " cause) ->
             e1 <> e2 /\ Error e1 <> Error e2).
  { intros e1 e2 [code ->] [cause ->]. split; [discriminate|].
    apply error_messages_differ. }
  destruct (IdentityAPI_GetIdentity (admin k) userID (remote w))
    as [[err|identity resp] st] eqn:H; cbn [fst].
  { rewrite (GetUser_failed _ _ _ _ H). cbn [fst snd]. clear H.
    refine (conj _ (conj _ (conj _ (conj _ (conj _ (conj _ Hdiff)))))); clear Hdiff;
      settle. }
  destruct (Z.eq_dec (StatusCode resp) StatusOK) as [Hs|Hs].
  2:{ rewrite (GetUser_status _ _ _ _ _ H Hs). cbn [fst snd]. clear H.
      refine (conj _ (conj _ (conj _ (conj _ (conj _ (conj _ Hdiff)))))); clear Hdiff;
        settle. }
  rewrite (GetUser_found _ _ _ _ _ H Hs). cbn [fst snd]. clear H.
  refine (conj _ (conj _ (conj _ (conj _ (conj _ (conj _ Hdiff)))))); clear Hdiff;
    settle.
Qed.

(** A read of an identity that the provider serves succeeds with the
    projection of the traits served, and leaves it served. *)
Lemma GetUser_serves userID (traits : gmap string GoValue) w :
  replaces_traits (admin k) ->
  serves (admin k) userID (VMap traits) (remote w) ->
  exists user w',
    GetUser k userID w = ((Some user, None), w')
    /\ ID user = userID
    /\ projects user traits
    /\ serves (admin k) userID (VMap traits) (remote w').
Proof.
  intros [_ Hread] Hserves.
  pose proof Hserves as (stored & resp & st & Hget & Hs & Hid & Htraits).
  rewrite (GetUser_found _ _ _ _ _ Hget Hs). cbn zeta.
  set (w1 := after w (Call_GetIdentity userID) st).
  assert (Hserves1 : serves (admin k) userID (VMap traits) (remote w1)).
  { exact (Hread _ _ _ _ _ _ Hget Hserves). }
  destruct (built_user_fields (GetId stored) false (GetCreatedAt stored)
              (GetUpdatedAt stored) (GetTraits stored)
              (isEmailVerified k (GetId stored) w1).1)
    as (Hfields & Htr & Hidu).
  set (user := withEmailVerified _ _) in *.
  exists user, (isEmailVerified k (GetId stored) w1).2.
  split; [reflexivity|]. split; [rewrite Hidu; exact Hid|]. split.
  - split; [rewrite Htr; exact Htraits|].
    intros key field Hin. rewrite Forall_forall in Hfields.
    apply list_elem_of_In, Hfields in Hin. cbn [fst snd] in Hin.
    rewrite Hin, Htraits. reflexivity.
  - rewrite Hid.
    destruct (IdentityAPI_GetIdentity (admin k) userID (remote w1))
      as [[err|i r] st2] eqn:Hget2.
    + rewrite (isEmailVerified_failed _ _ _ _ Hget2). cbn [snd after remote].
      exact (Hread _ _ _ _ _ _ Hget2 Hserves1).
    + rewrite (isEmailVerified_returned _ _ _ _ _ Hget2). cbn [snd after remote].
      exact (Hread _ _ _ _ _ _ Hget2 Hserves1).
Qed.

(** C7. A successful update is answered by reading the identity again:
    [UpdateUser] returns what [GetUser] returns for the id of the updated
    identity in the world the update left, and nothing else of the update's
    response body. When the provider replaces traits as its contract says,
    the update succeeds with a user that is the projection of the traits
    passed in, and so does a [GetUser] of the same id that follows it: each
    recognised field is the string stored under its key, the empty string
    when the key is absent. *)
Theorem UpdateUser_round_trip userID (traits : gmap string GoValue) w updated resp st :
  IdentityAPI_UpdateIdentity (admin k) userID traits (remote w) = (Returned updated resp, st) ->
  StatusCode resp = StatusOK ->
  let w1 := after w (Call_UpdateIdentity userID traits) st in
  UpdateUser k userID traits w = GetUser k (GetId updated) w1
  /\ (replaces_traits (admin k) ->
      exists user w2,
        UpdateUser k userID traits w = ((Some user, None), w2)
        /\ ID user = userID
        /\ projects user traits
        /\ exists user' w3,
            GetUser k userID w2 = ((Some user', None), w3)
            /\ ID user' = userID
            /\ projects user' traits
            /\ (forall key field s,
                  In (key, field) recognized -> traits !! key = Some (VString s) ->
                  field user' = s)
            /\ (forall key field,
                  In (key, field) recognized -> traits !! key = None ->
                  field user' = "")).
Proof.
  intros Hupd Hs w1.
  assert (Hre : UpdateUser k userID traits w = GetUser k (GetId updated) w1).
  { unfold UpdateUser. run. rewrite Hupd, Hs. reflexivity. }
  split; [exact Hre|].
  intros Hcontract.
  destruct (proj1 Hcontract _ _ _ _ _ _ Hupd Hs) as [Hid Hserves].
  rewrite Hre, Hid.
  destruct (GetUser_serves userID traits w1 Hcontract Hserves)
    as (user & w2 & Hget & Hidu & Hproj & Hserves2).
  exists user, w2. split; [exact Hget|]. split; [exact Hidu|]. split; [exact Hproj|].
  destruct (GetUser_serves userID traits w2 Hcontract Hserves2)
    as (user' & w3 & Hget' & Hidu' & Hproj' & _).
  exists user', w3. split; [exact Hget'|]. split; [exact Hidu'|]. split; [exact Hproj'|].
  destruct Hproj' as [_ Hfields]. split.
  - intros key field s Hin Hk. rewrite (Hfields _ _ Hin), Hk. reflexivity.
  - intros key field Hin Hk. rewrite (Hfields _ _ Hin), Hk. reflexivity.
Qed.

(** ** The session middleware *)

Lemma served_after (w : World R) e st :
  served (trace (after w e st)) =
  (served (trace w) ++ match e with Next_ServeHTTP r => [r] | _ => [] end)%list.
Proof. unfold served, after. cbn [trace]. rewrite omap_app. destruct e; reflexivity. Qed.

Lemma written_after (w : World R) e st :
  written (trace (after w e st)) =
  (written (trace w) ++ match e with Http_Error msg code => [(msg, code)] | _ => [] end)%list.
Proof. unfold written, after. cbn [trace]. rewrite omap_app. destruct e; reflexivity. Qed.

Lemma isEmailVerified_quiet userID w :
  served (trace (isEmailVerified k userID w).2) = served (trace w)
  /\ written (trace (isEmailVerified k userID w).2) = written (trace w).
Proof.
  unfold served, written. rewrite isEmailVerified_trace, !omap_app. cbn.
  rewrite !app_nil_r. split; reflexivity.
Qed.

(** [ValidateSession] only talks to the provider: it writes no response and
    serves no handler. *)
Lemma ValidateSession_quiet tok w :
  served (trace (ValidateSession k tok w).2) = served (trace w)
  /\ written (trace (ValidateSession k tok w).2) = written (trace w).
Proof.
  destruct (String.eqb_spec tok "") as [->|Ht].
  { rewrite ValidateSession_empty. split; reflexivity. }
  destruct (FrontendAPI_ToSession (public k) tok (remote w))
    as [[err|session resp] st] eqn:H.
  { rewrite (ValidateSession_failed _ _ _ _ Ht H). cbn [snd].
    rewrite served_after, written_after, !app_nil_r. split; reflexivity. }
  destruct (Z.eq_dec (StatusCode resp) StatusOK) as [Hs|Hs].
  2:{ rewrite (ValidateSession_status _ _ _ _ _ Ht H Hs). cbn [snd].
      rewrite served_after, written_after, !app_nil_r. split; reflexivity. }
  destruct (GetActive session) eqn:Ha.
  2:{ rewrite (ValidateSession_inactive _ _ _ _ _ Ht H Hs Ha). cbn [snd].
      rewrite served_after, written_after, !app_nil_r. split; reflexivity. }
  rewrite (ValidateSession_accepted _ _ _ _ _ Ht H Hs Ha). cbn [snd].
  destruct (isEmailVerified_quiet (GetId (session_Identity session))
              (after w (Call_ToSession tok) st)) as [-> ->].
  rewrite served_after, written_after, !app_nil_r. split; reflexivity.
Qed.

Lemma SessionMiddleware_no_token next r w :
  extractSessionToken r = "" ->
  SessionMiddleware k next r w =
    (tt, after w (Http_Error "Session token required" StatusUnauthorized) (remote w)).
Proof. intros Ht. unfold SessionMiddleware. rewrite Ht. reflexivity. Qed.

Lemma SessionMiddleware_rejected next r w user err w1 :
  extractSessionToken r <> "" ->
  ValidateSession k (extractSessionToken r) w = ((user, Some err), w1) ->
  SessionMiddleware k next r w =
    (tt, after w1 (Http_Error "Invalid session" StatusUnauthorized) (remote w1)).
Proof.
  intros Ht Hv. unfold SessionMiddleware. rewrite (eqb_empty_false _ Ht).
  run. rewrite Hv. reflexivity.
Qed.

Lemma SessionMiddleware_accepted next r w user w1 :
  extractSessionToken r <> "" ->
  ValidateSession k (extractSessionToken r) w = ((user, None), w1) ->
  let r' := WithContext r (WithValue (Ctx r) "user" (CtxUser user)) in
  SessionMiddleware k next r w = next r' (after w1 (Next_ServeHTTP r') (remote w1)).
Proof.
  intros Ht Hv r'. unfold SessionMiddleware. rewrite (eqb_empty_false _ Ht).
  run. rewrite Hv. reflexivity.
Qed.

(** C9. Without a token the middleware writes 401 "Session token required";
    with a token that [ValidateSession] rejects it writes 401 "Invalid
    session"; in both cases that is all it does: the next handler is not
    served, so no request with a principal bound exists. When validation
    succeeds it serves the next handler the request whose context binds the
    validated user under ["user"], and writes nothing itself. The next
    handler is served in no other case. *)
Theorem SessionMiddleware_gate (next : Handler) (r : Request) (w : World R) :
  let tok := extractSessionToken r in
  (tok = "" ->
   SessionMiddleware k next r w =
     (tt, after w (Http_Error "Session token required" StatusUnauthorized) (remote w))
   /\ served (trace (SessionMiddleware k next r w).2) = served (trace w)
   /\ written (trace (SessionMiddleware k next r w).2) =
      (written (trace w) ++ [("Session token required", 401)])%list)
  /\ (tok <> "" -> forall user err w1,
      ValidateSession k tok w = ((user, Some err), w1) ->
      SessionMiddleware k next r w =
        (tt, after w1 (Http_Error "Invalid session" StatusUnauthorized) (remote w1))
      /\ served (trace (SessionMiddleware k next r w).2) = served (trace w)
      /\ written (trace (SessionMiddleware k next r w).2) =
         (written (trace w) ++ [("Invalid session", 401)])%list)
  /\ (tok <> "" -> forall user w1,
      ValidateSession k tok w = ((user, None), w1) ->
      let r' := WithContext r (WithValue (Ctx r) "user" (CtxUser user)) in
      let w' := after w1 (Next_ServeHTTP r') (remote w1) in
      SessionMiddleware k next r w = next r' w'
      /\ is_Some user
      /\ GetUserFromContext (Ctx r') = (user, true)
      /\ RequireUser (Ctx r') = (user, None)
      /\ served (trace w') = (served (trace w) ++ [r'])%list
      /\ written (trace w') = written (trace w))
  /\ (served (trace (SessionMiddleware k idle r w).2) <> served (trace w) ->
      tok <> "" /\ exists user w1, ValidateSession k tok w = ((Some user, None), w1)).
Proof.
  intros tok. subst tok.
  refine (conj _ (conj _ (conj _ _))).
  - intros Ht. rewrite (SessionMiddleware_no_token _ _ _ Ht). cbn [snd].
    rewrite served_after, written_after, app_nil_r.
    split; [reflexivity|]. split; reflexivity.
  - intros Ht user err w1 Hv. rewrite (SessionMiddleware_rejected _ _ _ _ _ _ Ht Hv).
    cbn [snd]. rewrite served_after, written_after, app_nil_r.
    destruct (ValidateSession_quiet (extractSessionToken r) w) as [Hq1 Hq2].
    rewrite Hv in Hq1, Hq2. cbn [snd] in Hq1, Hq2. rewrite Hq1, Hq2.
    split; [reflexivity|]. split; reflexivity.
  - intros Ht user w1 Hv r' w'.
    destruct (ValidateSession_quiet (extractSessionToken r) w) as [Hq1 Hq2].
    rewrite Hv in Hq1, Hq2. cbn [snd] in Hq1, Hq2.
    pose proof (ValidateSession_user (extractSessionToken r) w) as Hsome.
    rewrite Hv in Hsome. cbn [fst snd] in Hsome. specialize (Hsome eq_refl).
    split; [exact (SessionMiddleware_accepted _ _ _ _ _ Ht Hv)|].
    split; [exact Hsome|].
    subst w'. rewrite served_after, written_after, app_nil_r, Hq1, Hq2.
    repeat split.
  - intros Hserved.
    destruct (String.eqb_spec (extractSessionToken r) "") as [Ht|Ht].
    { exfalso. apply Hserved. rewrite (SessionMiddleware_no_token _ _ _ Ht).
      cbn [snd]. rewrite served_after, app_nil_r. reflexivity. }
    split; [exact Ht|].
    destruct (ValidateSession k (extractSessionToken r) w) as [[user [err|]] w1] eqn:Hv.
    { exfalso. apply Hserved.
      rewrite (SessionMiddleware_rejected _ _ _ _ _ _ Ht Hv). cbn [snd].
      rewrite served_after, app_nil_r.
      destruct (ValidateSession_quiet (extractSessionToken r) w) as [Hq1 _].
      rewrite Hv in Hq1. exact Hq1. }
    pose proof (ValidateSession_user (extractSessionToken r) w) as Hsome.
    rewrite Hv in Hsome. cbn [fst snd] in Hsome.
    destruct (Hsome eq_refl) as [u ->]. exists u, w1. reflexivity.
Qed.

End ClientProperties.

(** ** The operations on concrete providers *)

(** The in-memory provider keeps the contract of an update. *)
Lemma memory_replaces_traits : replaces_traits (admin memory).
Proof.
  split.
  - intros id traits st updated resp st' Hupd _. cbn in Hupd.
    unfold store_UpdateIdentity in Hupd.
    destruct (identities st !! id) as [i|] eqn:Hi; [|discriminate Hupd].
    injection Hupd as <- _ <-. split; [reflexivity|].
    unfold serves. cbn. unfold store_GetIdentity. cbn. rewrite lookup_insert_eq.
    eexists _, _, _. split; [reflexivity|]. repeat split.
  - intros id traits id' st reply st' Hget Hserves. cbn in Hget.
    unfold store_GetIdentity in Hget.
    destruct (identities st !! id'); injection Hget as _ <-; exact Hserves.
Qed.

(** C1 as stated fails: a session payload that is active and carries no
    identity (or one with an empty id) is accepted with status 200, and the
    user returned has an empty id. *)
Lemma ValidateSession_accepts_empty_id :
  exists user w',
    ValidateSession provider_without_id "abc" (start tt) = ((Some user, None), w')
    /\ ID user = "".
Proof. eexists _, _. split; [vm_compute; reflexivity | reflexivity]. Qed.

Lemma ValidateSession_user_id_witness :
  exists user session resp st,
    (ValidateSession provider_u1 "abc" (start tt)).1.1 = Some user
    /\ FrontendAPI_ToSession (public provider_u1) "abc" (remote (start tt))
       = (Returned session resp, st)
    /\ ID user = GetId (session_Identity session)
    /\ (ID user <> "" <-> GetId (session_Identity session) <> "").
Proof. apply (ValidateSession_user_id provider_u1 "abc" (start tt)). reflexivity. Defined.

Lemma ValidateSession_errors_witness :
  ValidateSession provider_u1 "" (start tt)
  = ((None, Some (Errorf "session token is required")), start tt)
  /\ is_Some (ValidateSession provider_inactive "abc" (start tt)).1.2
  /\ (ValidateSession provider_inactive "abc" (start tt)).1.1 = None.
Proof.
  pose proof (ValidateSession_errors provider_u1 "" (start tt))
    as (_ & _ & _ & Hempty & _).
  pose proof (ValidateSession_errors provider_inactive "abc" (start tt))
    as (_ & _ & _ & _ & Hinactive & _).
  split; [exact (Hempty eq_refl)|].
  exact (Hinactive (session_of false identity_u1) ok eq_refl eq_refl).
Defined.

Lemma isEmailVerified_two_tier_witness :
  (isEmailVerified provider_u2 "u2" (start tt)).1 = true.
Proof.
  pose proof (isEmailVerified_two_tier provider_u2 "u2" (start tt) identity_u2 ok tt
                eq_refl eq_refl) as (_ & _ & Htier1 & _).
  apply Htier1. left. split; reflexivity.
Defined.

Lemma isEmailVerified_fails_closed_witness :
  (isEmailVerified provider_down "u1" (start tt)).1 = false
  /\ (isEmailVerified (provider_status 503) "u1" (start tt)).1 = false.
Proof.
  pose proof (isEmailVerified_fails_closed provider_down "u1" (start tt))
    as (Hfailed & _).
  pose proof (isEmailVerified_fails_closed (provider_status 503) "u1" (start tt))
    as (_ & Hstatus & _).
  split.
  - exact (Hfailed (ClientError "404 Not Found") tt eq_refl).
  - apply (Hstatus identity_u1 {| StatusCode := 503 |} tt eq_refl). discriminate.
Defined.

(** C8 as stated fails: a reply with status 500, and one with status 204,
    neither of them the not-found status, make [GetUser] fail with the
    "user not found" error. *)
Lemma GetUser_not_found_on_other_status :
  (GetUser (provider_status 500) "u1" (start tt)).1
  = (None, Some (ErrorfD "user not found: status " 500))
  /\ is_user_not_found (ErrorfD "user not found: status " 500)
  /\ 500 <> StatusNotFound
  /\ (GetUser (provider_status 204) "u1" (start tt)).1
     = (None, Some (ErrorfD "user not found: status " 204))
  /\ is_user_not_found (ErrorfD "user not found: status " 204)
  /\ 204 <> StatusNotFound.
Proof.
  refine (conj eq_refl (conj _ (conj _ (conj eq_refl (conj _ _)))));
    first [ discriminate | eexists; reflexivity ].
Qed.

Lemma GetUser_errors_witness :
  (GetUser (provider_status 404) "u1" (start tt)).1
  = (None, Some (ErrorfD "user not found: status " 404))
  /\ (GetUser provider_down "u1" (start tt)).1
     = (None, Some (ErrorfW "failed to get user: " (ClientError "404 Not Found"))).
Proof.
  pose proof (GetUser_errors (provider_status 404) "u1" (start tt))
    as (_ & _ & Hstatus & _).
  pose proof (GetUser_errors provider_down "u1" (start tt))
    as (_ & _ & _ & Hfailed & _).
  split.
  - apply (Hstatus identity_u1 {| StatusCode := 404 |}); [reflexivity | discriminate].
  - apply Hfailed. reflexivity.
Defined.

Lemma UpdateUser_round_trip_witness :
  exists user w2 user' w3,
    UpdateUser memory "u1" new_traits (start sample_store) = ((Some user, None), w2)
    /\ GetUser memory "u1" w2 = ((Some user', None), w3)
    /\ ID user' = "u1"
    /\ Email user' = "new@b.com"
    /\ FirstName user' = "Ann"
    /\ Phone user' = "".
Proof.
  edestruct (UpdateUser_round_trip memory "u1" new_traits (start sample_store))
    as [_ Hrt]; [reflexivity | reflexivity |].
  destruct (Hrt memory_replaces_traits)
    as (user & w2 & Hupd & _ & _ & user' & w3 & Hget & Hid & _ & Hstr & Habs).
  exists user, w2, user', w3. split; [exact Hupd|]. split; [exact Hget|].
  split; [exact Hid|]. split; [|split].
  - apply (Hstr "email"); [cbn; tauto | reflexivity].
  - apply (Hstr "first_name"); [cbn; tauto | reflexivity].
  - apply (Habs "phone"); [cbn; tauto | reflexivity].
Defined.

Lemma SessionMiddleware_gate_witness :
  SessionMiddleware provider_u1 idle request_anonymous (start tt)
  = (tt, after (start tt) (Http_Error "Session token required" StatusUnauthorized) tt)
  /\ written (trace (SessionMiddleware provider_inactive idle request_abc (start tt)).2)
     = [("Invalid session", 401)]
  /\ served (trace (SessionMiddleware provider_inactive idle request_abc (start tt)).2)
     = [].
Proof.
  pose proof (SessionMiddleware_gate provider_u1 idle request_anonymous (start tt))
    as (Hnone & _).
  pose proof (SessionMiddleware_gate provider_inactive idle request_abc (start tt))
    as (_ & Hrejected & _).
  split; [exact (proj1 (Hnone eq_refl))|].
  assert (Htok : extractSessionToken request_abc <> "") by (vm_compute; discriminate).
  destruct (Hrejected Htok None (Errorf "session is not active")
              (after (start tt) (Call_ToSession "abc") tt) eq_refl)
    as (_ & Hserved & Hwritten).
  split; [exact Hwritten | exact Hserved].
Defined.

(** ** The specification's scenario, run *)

(** Token ["abc"] in the [X-Session-Token] header, an active session of
    identity ["u1"] with the one trait [email], no verifiable or recovery
    address: the user has that id and email, is active and not verified, and
    the provider was called twice. *)
Example scenario_abc :
  exists user w',
    ValidateSession provider_u1 (extractSessionToken request_abc) (start tt)
    = ((Some user, None), w')
    /\ ID user = "u1" /\ Email user = "a@b.com"
    /\ EmailVerified user = false /\ Active user = true
    /\ trace w' = [Call_ToSession "abc"; Call_GetIdentity "u1"].
Proof.
  eexists _, _. split; [vm_compute; reflexivity|].
  repeat split.
Qed.

(** The same request through the middleware: the next handler is served
    once, with the user bound, and nothing is written. *)
Example scenario_abc_served :
  exists r' user,
    served (trace (SessionMiddleware provider_u1 idle request_abc (start tt)).2) = [r']
    /\ GetUserFromContext (Ctx r') = (Some user, true)
    /\ ID user = "u1"
    /\ written (trace (SessionMiddleware provider_u1 idle request_abc (start tt)).2) = [].
Proof.
  eexists _, _. split; [vm_compute; reflexivity|].
  repeat split.
Qed.

(** A context the middleware never touched has no principal. *)
Example scenario_unauthenticated :
  RequireUser (Ctx request_abc) = (None, Some (Errorf "user not found in context")).
Proof. reflexivity. Qed.

(** * Further properties of the package *)

(** ** When the extractor yields no token *)

Lemma HasPrefix_split (s p : string) :
  HasPrefix s p = true -> s = p +:+ TrimPrefix s p.
Proof.
  intros H. unfold TrimPrefix. rewrite H. unfold HasPrefix in H.
  revert s H. induction p as [|a p IH]; intros s H.
  - reflexivity.
  - destruct s as [|b s]; cbn [String.prefix] in H; [discriminate H|].
    destruct (Ascii.ascii_dec a b) as [<-|]; [|discriminate H].
    cbn [String.length drop_chars].
    change (String a p +:+ drop_chars (String.length p) s)
      with (String a (p +:+ drop_chars (String.length p) s)).
    f_equal. apply IH. exact H.
Qed.

(** [extractSessionToken] returns the empty string in exactly two
    situations: the [Authorization] header is ["Bearer "] with nothing after
    it (whatever the other two transports carry), or there is no Bearer
    header, the [X-Session-Token] header is empty or missing, and the
    [ory_kratos_session] cookie is missing or has an empty value. *)
Theorem extractSessionToken_empty_iff (r : Request) :
  extractSessionToken r = "" <->
  Header_Get (Header r) "Authorization" = "Bearer "
  \/ (HasPrefix (Header_Get (Header r) "Authorization") "Bearer " = false
      /\ Header_Get (Header r) "X-Session-Token" = ""
      /\ (Request_Cookie r "ory_kratos_session" = None
          \/ exists c, Request_Cookie r "ory_kratos_session" = Some c /\ Value c = "")).
Proof.
  unfold extractSessionToken.
  set (auth := Header_Get (Header r) "Authorization").
  set (token := Header_Get (Header r) "X-Session-Token").
  destruct (HasPrefix auth "Bearer ") eqn:Hp.
  - assert (Hne : String.eqb auth "" = false).
    { destruct (String.eqb_spec auth "") as [He|_]; [|reflexivity].
      rewrite He in Hp. discriminate Hp. }
    rewrite Hne. cbn [negb andb]. split.
    + intros Ht. left. rewrite (HasPrefix_split _ _ Hp), Ht. reflexivity.
    + intros [Ha|[Hc _]]; [|discriminate Hc]. rewrite Ha. reflexivity.
  - rewrite andb_false_r. split.
    + intros Ht. right. split; [reflexivity|].
      destruct (String.eqb_spec token "") as [He|Hn]; cbn [negb] in Ht.
      * split; [exact He|].
        destruct (Request_Cookie r "ory_kratos_session") as [c|];
          [right; exists c; split; [reflexivity | exact Ht] | left; reflexivity].
      * contradiction.
    + intros [Ha|(_ & He & Hc)].
      * rewrite Ha in Hp. discriminate Hp.
      * rewrite He. cbn [String.eqb negb].
        destruct Hc as [->|(c & -> & Hv)]; [reflexivity | exact Hv].
Qed.

Lemma extractSessionToken_empty_iff_witness :
  extractSessionToken request_empty_bearer = ""
  /\ extractSessionToken request_anonymous = "".
Proof.
  split.
  - apply (proj2 (extractSessionToken_empty_iff request_empty_bearer)).
    left. reflexivity.
  - apply (proj2 (extractSessionToken_empty_iff request_anonymous)).
    right. split; [reflexivity|]. split; [reflexivity|]. left. reflexivity.
Defined.

(** ** The principal in a context *)

Lemma GetUserFromContext_bound ctx u :
  Context_Value ctx "user" = Some (CtxUser u) -> GetUserFromContext ctx = (u, true).
Proof. intros H. unfold GetUserFromContext. rewrite H. reflexivity. Qed.

(** [RequireUser] succeeds exactly when the innermost binding of ["user"] in
    the context holds a [KratosUser] pointer, and then returns that pointer,
    agreeing with [GetUserFromContext]; otherwise it fails with "user not
    found in context" and a nil user. A nil pointer bound under ["user"] is
    returned as it is: no user and no error. *)
Theorem RequireUser_iff (ctx : Context) :
  ((RequireUser ctx).2 = None <-> exists u, Context_Value ctx "user" = Some (CtxUser u))
  /\ (forall u, Context_Value ctx "user" = Some (CtxUser u) ->
                RequireUser ctx = (u, None) /\ GetUserFromContext ctx = (u, true))
  /\ ((forall u, Context_Value ctx "user" <> Some (CtxUser u)) ->
      RequireUser ctx = (None, Some (Errorf "user not found in context"))
      /\ GetUserFromContext ctx = (None, false))
  /\ (forall u, RequireUser (WithValue ctx "user" (CtxUser u)) = (u, None))
  /\ RequireUser (WithValue ctx "user" (CtxUser None)) = (None, None).
Proof.
  unfold RequireUser, GetUserFromContext.
  refine (conj _ (conj _ (conj _ (conj _ _)))).
  - destruct (Context_Value ctx "user") as [[u|v]|]; cbn; split;
      first [ intros _; exists u; reflexivity
            | reflexivity
            | discriminate
            | intros [u' Hu]; discriminate Hu ].
  - intros u ->. split; reflexivity.
  - intros Hno. destruct (Context_Value ctx "user") as [[u|v]|];
      [destruct (Hno u eq_refl) | split; reflexivity ..].
  - intros u. reflexivity.
  - reflexivity.
Qed.

Lemma RequireUser_iff_witness :
  RequireUser (WithValue [] "user" (CtxUser (Some (newUser "u1" true 0 0))))
  = (Some (newUser "u1" true 0 0), None)
  /\ RequireUser [] = (None, Some (Errorf "user not found in context")).
Proof.
  split.
  - apply (proj1 (proj2 (RequireUser_iff
             (WithValue [] "user" (CtxUser (Some (newUser "u1" true 0 0))))))).
    reflexivity.
  - apply (proj1 (proj2 (proj2 (RequireUser_iff [])))).
    intros u Hu. discriminate Hu.
Defined.

(** Bindings under other keys do not matter to [RequireUser], in whatever
    order they were made; a later binding of ["user"] to a value that is no
    [KratosUser] pointer hides an earlier principal. *)
Theorem RequireUser_frame (ctx : Context) (key : string) (v : CtxValue) :
  key <> "user" ->
  RequireUser (WithValue ctx key v) = RequireUser ctx
  /\ GetUserFromContext (WithValue ctx key v) = GetUserFromContext ctx
  /\ (forall u, RequireUser (WithValue (WithValue ctx "user" (CtxUser u)) key v)
                = (u, None))
  /\ (forall u x, RequireUser (WithValue (WithValue ctx "user" (CtxUser u)) "user"
                                         (CtxOther x))
                  = (None, Some (Errorf "user not found in context"))).
Proof.
  intros Hk.
  assert (Hval : forall c, Context_Value (WithValue c key v) "user" = Context_Value c "user").
  { intros c. cbn [WithValue Context_Value].
    destruct (String.eqb_spec key "user") as [He|_]; [contradiction | reflexivity]. }
  unfold RequireUser, GetUserFromContext.
  refine (conj _ (conj _ (conj _ _))).
  - rewrite Hval. reflexivity.
  - rewrite Hval. reflexivity.
  - intros u. rewrite Hval. reflexivity.
  - intros u x. reflexivity.
Qed.

Lemma RequireUser_frame_witness :
  RequireUser (WithValue [] "request_id" (CtxOther (VString "r-17"))) = RequireUser [].
Proof.
  apply (RequireUser_frame [] "request_id" (CtxOther (VString "r-17"))).
  discriminate.
Defined.

(** ** The admin operations that return no user *)

(** [DeleteUser] and [RevokeSession] report success exactly when the client
    call returned no error and status 204: every other status, 200
    included, is an error that carries the status, and a client error is
    wrapped. Either way the provider is left in the state the call put it
    in: an error does not say that nothing was deleted or revoked. *)
Theorem DeleteUser_RevokeSession_no_content {R} (a : AdminAPI R) (id : string) (st : R) :
  let del := IdentityAPI_DeleteIdentity a id st in
  let dis := IdentityAPI_DisableSession a id st in
  ((DeleteUser a id st).1 = None <->
   exists u resp, del.1 = Returned u resp /\ StatusCode resp = StatusNoContent)
  /\ ((RevokeSession a id st).1 = None <->
      exists u resp, dis.1 = Returned u resp /\ StatusCode resp = StatusNoContent)
  /\ (forall u resp, del.1 = Returned u resp -> StatusCode resp <> StatusNoContent ->
        (DeleteUser a id st).1
        = Some (ErrorfD "failed to delete user: status " (StatusCode resp)))
  /\ (forall u resp, dis.1 = Returned u resp -> StatusCode resp <> StatusNoContent ->
        (RevokeSession a id st).1
        = Some (ErrorfD "failed to revoke session: status " (StatusCode resp)))
  /\ (forall err, del.1 = Failed err ->
        (DeleteUser a id st).1 = Some (ErrorfW "failed to delete user: " err))
  /\ (forall err, dis.1 = Failed err ->
        (RevokeSession a id st).1 = Some (ErrorfW "failed to revoke session: " err))
  /\ (DeleteUser a id st).2 = del.2
  /\ (RevokeSession a id st).2 = dis.2.
Proof.
  intros del dis. subst del dis. unfold DeleteUser, RevokeSession.
  destruct (IdentityAPI_DeleteIdentity a id st) as [[e1|u1 r1] st1];
    destruct (IdentityAPI_DisableSession a id st) as [[e2|u2 r2] st2];
    cbn [fst snd];
    try destruct (Z.eqb_spec (StatusCode r1) StatusNoContent);
    try destruct (Z.eqb_spec (StatusCode r2) StatusNoContent);
    cbn [negb fst snd]; settle.
Qed.

Lemma DeleteUser_RevokeSession_no_content_witness :
  (DeleteUser (scripted_admin (Returned tt {| StatusCode := 204 |}) (Returned [] ok)
                              (Returned tt ok)) "u1" tt).1 = None
  /\ (RevokeSession (scripted_admin (Returned tt {| StatusCode := 204 |}) (Returned [] ok)
                                    (Returned tt ok)) "s1" tt).1
     = Some (ErrorfD "failed to revoke session: status " 200).
Proof.
  pose proof (DeleteUser_RevokeSession_no_content
                (scripted_admin (Returned tt {| StatusCode := 204 |}) (Returned [] ok)
                                (Returned tt ok)) "u1" tt)
    as (Hdel & _).
  pose proof (DeleteUser_RevokeSession_no_content
                (scripted_admin (Returned tt {| StatusCode := 204 |}) (Returned [] ok)
                                (Returned tt ok)) "s1" tt)
    as (_ & _ & _ & Hdis & _).
  split.
  - apply Hdel. exists tt, {| StatusCode := 204 |}. split; reflexivity.
  - apply (Hdis tt ok); [reflexivity | discriminate].
Defined.

(** [ListUserSessions] hands over the provider's list as it is (order and
    repetitions kept) with no error exactly when the client call returned
    no error and status 200; in every other case the list is empty and the
    error says why. *)
Theorem ListUserSessions_result {R} (a : AdminAPI R) (userID : string) (st : R) :
  let reply := (IdentityAPI_ListIdentitySessions a userID st).1 in
  let res := (ListUserSessions a userID st).1 in
  (res.2 = None <->
   exists sessions resp, reply = Returned sessions resp /\ StatusCode resp = StatusOK)
  /\ (forall sessions resp,
        reply = Returned sessions resp -> StatusCode resp = StatusOK ->
        res = (sessions, None))
  /\ (forall sessions resp,
        reply = Returned sessions resp -> StatusCode resp <> StatusOK ->
        res = ([], Some (ErrorfD "failed to list sessions: status " (StatusCode resp))))
  /\ (forall err, reply = Failed err ->
        res = ([], Some (ErrorfW "failed to list sessions: " err)))
  /\ (is_Some res.2 -> res.1 = [])
  /\ (ListUserSessions a userID st).2 = (IdentityAPI_ListIdentitySessions a userID st).2.
Proof.
  intros reply res. subst reply res. unfold ListUserSessions.
  destruct (IdentityAPI_ListIdentitySessions a userID st) as [[e|l r] st1];
    cbn [fst snd];
    try destruct (Z.eqb_spec (StatusCode r) StatusOK);
    cbn [negb fst snd]; settle.
Qed.

Lemma ListUserSessions_result_witness :
  (ListUserSessions
     (scripted_admin (Returned tt ok)
        (Returned [session_of true identity_u1; session_of false identity_u1] ok)
        (Returned tt ok)) "u1" tt).1
  = ([session_of true identity_u1; session_of false identity_u1], None).
Proof.
  pose proof (ListUserSessions_result
     (scripted_admin (Returned tt ok)
        (Returned [session_of true identity_u1; session_of false identity_u1] ok)
        (Returned tt ok)) "u1" tt) as (_ & Hok & _).
  apply (Hok _ ok); reflexivity.
Defined.

(** ** The registration hook *)

Lemma jsonnet_field_or_object (t : gmap string GoValue) f dflt :
  jsonnet_field_or (VMap t) f dflt = Some (default dflt (t !! f)).
Proof. unfold jsonnet_field_or. cbn. destruct (t !! f); reflexivity. Qed.

(** The hook produces a body exactly when the context has an identity with
    an id and with traits that are an object holding [email] and
    [username]; when one of them is missing the hook fails, where a missing
    [first_name], [last_name] or [subscription_plan] is defaulted. *)
Theorem registration_defined_iff (ctx : GoValue) :
  is_Some (registration ctx) <->
  exists identity id t email username,
    jsonnet_field ctx "identity" = Some identity
    /\ jsonnet_field identity "id" = Some id
    /\ jsonnet_field identity "traits" = Some (VMap t)
    /\ t !! "email" = Some email
    /\ t !! "username" = Some username.
Proof.
  unfold registration. split.
  - intros [out H].
    destruct (jsonnet_field ctx "identity") as [identity|] eqn:Hi;
      cbn [mbind option_bind] in H; [|discriminate H].
    destruct (jsonnet_field identity "id") as [id|] eqn:Hid;
      cbn [mbind option_bind] in H; [|discriminate H].
    destruct (jsonnet_field identity "traits") as [traits|] eqn:Ht;
      cbn [mbind option_bind] in H; [|discriminate H].
    destruct traits as [| | | | |t]; cbn [jsonnet_field mbind option_bind] in H;
      try discriminate H.
    destruct (t !! "email") as [e|] eqn:He;
      cbn [mbind option_bind] in H; [|discriminate H].
    destruct (t !! "username") as [u|] eqn:Hu;
      cbn [mbind option_bind] in H; [|discriminate H].
    exists identity, id, t, e, u. repeat split; assumption.
  - intros (identity & id & t & e & u & Hi & Hid & Ht & He & Hu).
    rewrite Hi. cbn [mbind option_bind]. rewrite Hid, Ht.
    cbn [mbind option_bind jsonnet_field]. rewrite He, Hu.
    rewrite !jsonnet_field_or_object. cbn [mbind option_bind]. eexists. reflexivity.
Qed.

(** In the body, [identity_id], [email] and [username] are the context's
    values, and [first_name], [last_name], [subscription_plan] are the
    traits' values when present, whatever their JSON type, and otherwise
    [""], [""] and ["free"]; the body has these six fields and no other. For
    an identity without a subscription plan the hook therefore sends
    ["free"], while [getStringFromTraits] projects the same traits to the
    empty string. *)
Theorem registration_body (ctx identity id : GoValue) (t : gmap string GoValue) email username :
  jsonnet_field ctx "identity" = Some identity ->
  jsonnet_field identity "id" = Some id ->
  jsonnet_field identity "traits" = Some (VMap t) ->
  t !! "email" = Some email ->
  t !! "username" = Some username ->
  exists body,
    registration ctx = Some (VMap body)
    /\ body !! "identity_id" = Some id
    /\ body !! "email" = Some email
    /\ body !! "username" = Some username
    /\ body !! "first_name" = Some (default (VString "") (t !! "first_name"))
    /\ body !! "last_name" = Some (default (VString "") (t !! "last_name"))
    /\ body !! "subscription_plan"
       = Some (default (VString "free") (t !! "subscription_plan"))
    /\ (forall f, is_Some (body !! f) ->
                  In f ["identity_id"; "email"; "username"; "first_name";
                        "last_name"; "subscription_plan"])
    /\ (t !! "subscription_plan" = None ->
        body !! "subscription_plan" = Some (VString "free")
        /\ getStringFromTraits (VMap t) "subscription_plan" = "").
Proof.
  intros Hi Hid Ht He Hu. unfold registration.
  rewrite Hi. cbn [mbind option_bind]. rewrite Hid, Ht.
  cbn [mbind option_bind jsonnet_field]. rewrite He, Hu.
  rewrite !jsonnet_field_or_object. cbn [mbind option_bind].
  eexists. split; [reflexivity|].
  cbn [list_to_map foldr uncurry fst snd].
  repeat (split; [simplify_map_eq; reflexivity|]).
  split.
  - intros f [v Hf].
    destruct (decide (f = "identity_id")) as [->|?]; [cbn; auto 10|].
    destruct (decide (f = "email")) as [->|?]; [cbn; auto 10|].
    destruct (decide (f = "username")) as [->|?]; [cbn; auto 10|].
    destruct (decide (f = "first_name")) as [->|?]; [cbn; auto 10|].
    destruct (decide (f = "last_name")) as [->|?]; [cbn; auto 10|].
    destruct (decide (f = "subscription_plan")) as [->|?]; [cbn; auto 10|].
    simplify_map_eq.
  - intros Hnone. rewrite Hnone. split; [simplify_map_eq; reflexivity|].
    cbn. rewrite Hnone. reflexivity.
Qed.

(** ** Where the fields of a user come from, and what is called *)

Section MoreClientProperties.
Context {R : Type}.
Variable k : KratosClient R.

Lemma isEmailVerified_run userID (w : World R) reply st :
  IdentityAPI_GetIdentity (admin k) userID (remote w) = (reply, st) ->
  isEmailVerified k userID w = (verdict reply, after w (Call_GetIdentity userID) st).
Proof.
  intros H. destruct reply as [err|identity resp].
  - exact (isEmailVerified_failed k _ _ _ _ H).
  - exact (isEmailVerified_returned k _ _ _ _ _ H).
Qed.

Lemma UpdateUser_reread userID (traits : gmap string GoValue) (w : World R) updated resp st :
  IdentityAPI_UpdateIdentity (admin k) userID traits (remote w) = (Returned updated resp, st) ->
  StatusCode resp = StatusOK ->
  UpdateUser k userID traits w
  = GetUser k (GetId updated) (after w (Call_UpdateIdentity userID traits) st).
Proof. intros H Hs. unfold UpdateUser. run. rewrite H, Hs. reflexivity. Qed.

Lemma built_user_rest id active created updated traits verified :
  let user := withEmailVerified
                (withTraits (newUser id active created updated) traits) verified in
  Active user = active /\ CreatedAt user = created /\ UpdatedAt user = updated
  /\ EmailVerified user = verified.
Proof. destruct traits; cbn; repeat split. Qed.

(** The user of an accepted session is put together from two replies: id,
    timestamps, raw traits and the seven projected fields come from the
    identity inside the session payload, [Active] is true, and
    [EmailVerified] is decided by the reply to the separate get-identity
    call alone, false when that call fails. Neither reply's other half is
    used: not the addresses in the session payload, not the traits of the
    fetched record. *)
Theorem ValidateSession_two_views tok (w : World R) session resp st reply st2 :
  tok <> "" ->
  FrontendAPI_ToSession (public k) tok (remote w) = (Returned session resp, st) ->
  StatusCode resp = StatusOK ->
  GetActive session = true ->
  IdentityAPI_GetIdentity (admin k) (GetId (session_Identity session)) st = (reply, st2) ->
  let identity := session_Identity session in
  exists user,
    ValidateSession k tok w
    = ((Some user, None),
       after (after w (Call_ToSession tok) st) (Call_GetIdentity (GetId identity)) st2)
    /\ ID user = GetId identity
    /\ Active user = true
    /\ CreatedAt user = GetCreatedAt identity
    /\ UpdatedAt user = GetUpdatedAt identity
    /\ Traits user = GetTraits identity
    /\ (forall key field, In (key, field) recognized ->
                          field user = getStringFromTraits (GetTraits identity) key)
    /\ EmailVerified user = verdict reply
    /\ ((forall i r, reply = Returned i r -> StatusCode r <> StatusOK) ->
        EmailVerified user = false).
Proof.
  intros Ht H Hs Ha Hget identity.
  rewrite (ValidateSession_accepted k _ _ _ _ _ Ht H Hs Ha). cbn zeta.
  subst identity. set (identity := session_Identity session) in *.
  assert (Hget' : IdentityAPI_GetIdentity (admin k) (GetId identity)
                    (remote (after w (Call_ToSession tok) st)) = (reply, st2))
    by exact Hget.
  rewrite (isEmailVerified_run _ _ _ _ Hget'). cbn [fst snd].
  destruct (built_user_fields (GetId identity) true (GetCreatedAt identity)
              (GetUpdatedAt identity) (GetTraits identity) (verdict reply))
    as (Hfields & Htr & Hid).
  destruct (built_user_rest (GetId identity) true (GetCreatedAt identity)
              (GetUpdatedAt identity) (GetTraits identity) (verdict reply))
    as (Hact & Hcr & Hup & Hev).
  eexists. split; [reflexivity|].
  split; [exact Hid|]. split; [exact Hact|]. split; [exact Hcr|].
  split; [exact Hup|]. split; [exact Htr|]. split.
  - intros key field Hin. rewrite Forall_forall in Hfields.
    apply list_elem_of_In in Hin. exact (Hfields _ Hin).
  - split; [exact Hev|]. intros Hfail. rewrite Hev.
    destruct reply as [err|i r]; [reflexivity|]. cbn [verdict].
    specialize (Hfail i r eq_refl). apply Z.eqb_neq in Hfail. rewrite Hfail. reflexivity.
Qed.

(** [ValidateSession] calls the provider as little as its outcome needs and
    never more: not at all for an empty token, once (session introspection)
    when it rejects, and exactly twice when it accepts, the second call
    being the get-identity lookup for the id of the user it returns. It
    writes no response and serves no handler. *)
Theorem ValidateSession_calls tok (w : World R) :
  let out := ValidateSession k tok w in
  (tok = "" -> out.2 = w)
  /\ (tok <> "" -> is_Some out.1.2 ->
      trace out.2 = (trace w ++ [Call_ToSession tok])%list)
  /\ (forall user, out.1 = (Some user, None) ->
      tok <> ""
      /\ trace out.2 = (trace w ++ [Call_ToSession tok; Call_GetIdentity (ID user)])%list)
  /\ served (trace out.2) = served (trace w)
  /\ written (trace out.2) = written (trace w).
Proof.
  intros out. subst out.
  refine (conj _ (conj _ (conj _ (ValidateSession_quiet k tok w)))).
  - intros ->. reflexivity.
  - intros Ht Herr.
    destruct (FrontendAPI_ToSession (public k) tok (remote w))
      as [[err|session resp] st] eqn:H.
    { rewrite (ValidateSession_failed k _ _ _ _ Ht H). reflexivity. }
    destruct (Z.eq_dec (StatusCode resp) StatusOK) as [Hs|Hs].
    2:{ rewrite (ValidateSession_status k _ _ _ _ _ Ht H Hs). reflexivity. }
    destruct (GetActive session) eqn:Ha.
    2:{ rewrite (ValidateSession_inactive k _ _ _ _ _ Ht H Hs Ha). reflexivity. }
    rewrite (ValidateSession_accepted k _ _ _ _ _ Ht H Hs Ha) in Herr.
    destruct Herr as [e He]. discriminate He.
  - intros user Hout.
    destruct (String.eqb_spec tok "") as [->|Ht].
    { rewrite ValidateSession_empty in Hout. discriminate Hout. }
    split; [exact Ht|].
    destruct (FrontendAPI_ToSession (public k) tok (remote w))
      as [[err|session resp] st] eqn:H.
    { rewrite (ValidateSession_failed k _ _ _ _ Ht H) in Hout. discriminate Hout. }
    destruct (Z.eq_dec (StatusCode resp) StatusOK) as [Hs|Hs].
    2:{ rewrite (ValidateSession_status k _ _ _ _ _ Ht H Hs) in Hout. discriminate Hout. }
    destruct (GetActive session) eqn:Ha.
    2:{ rewrite (ValidateSession_inactive k _ _ _ _ _ Ht H Hs Ha) in Hout.
        discriminate Hout. }
    rewrite (ValidateSession_accepted k _ _ _ _ _ Ht H Hs Ha) in Hout |- *.
    cbn [fst snd] in Hout |- *. injection Hout as <-.
    rewrite isEmailVerified_trace. cbn [withEmailVerified ID].
    rewrite withTraits_ID. cbn [newUser ID after trace].
    rewrite <- app_assoc. reflexivity.
Qed.

(** A successful [GetUser] fetches the identity twice. The user's id,
    timestamps, traits and projected fields are those of the first reply;
    [EmailVerified] is decided by the second reply alone (false when that
    call fails, whatever addresses the first reply carried); [Active] is
    always false, since no session is involved. *)
Theorem GetUser_reads_twice userID (w : World R) identity resp st reply st2 :
  IdentityAPI_GetIdentity (admin k) userID (remote w) = (Returned identity resp, st) ->
  StatusCode resp = StatusOK ->
  IdentityAPI_GetIdentity (admin k) (GetId identity) st = (reply, st2) ->
  exists user,
    GetUser k userID w
    = ((Some user, None),
       after (after w (Call_GetIdentity userID) st) (Call_GetIdentity (GetId identity)) st2)
    /\ ID user = GetId identity
    /\ Active user = false
    /\ CreatedAt user = GetCreatedAt identity
    /\ UpdatedAt user = GetUpdatedAt identity
    /\ Traits user = GetTraits identity
    /\ (forall key field, In (key, field) recognized ->
                          field user = getStringFromTraits (GetTraits identity) key)
    /\ EmailVerified user = verdict reply
    /\ ((forall i r, reply = Returned i r -> StatusCode r <> StatusOK) ->
        EmailVerified user = false).
Proof.
  intros H Hs Hget.
  rewrite (GetUser_found k _ _ _ _ _ H Hs). cbn zeta.
  assert (Hget' : IdentityAPI_GetIdentity (admin k) (GetId identity)
                    (remote (after w (Call_GetIdentity userID) st)) = (reply, st2))
    by exact Hget.
  rewrite (isEmailVerified_run _ _ _ _ Hget'). cbn [fst snd].
  destruct (built_user_fields (GetId identity) false (GetCreatedAt identity)
              (GetUpdatedAt identity) (GetTraits identity) (verdict reply))
    as (Hfields & Htr & Hid).
  destruct (built_user_rest (GetId identity) false (GetCreatedAt identity)
              (GetUpdatedAt identity) (GetTraits identity) (verdict reply))
    as (Hact & Hcr & Hup & Hev).
  eexists. split; [reflexivity|].
  split; [exact Hid|]. split; [exact Hact|]. split; [exact Hcr|].
  split; [exact Hup|]. split; [exact Htr|]. split.
  - intros key field Hin. rewrite Forall_forall in Hfields.
    apply list_elem_of_In in Hin. exact (Hfields _ Hin).
  - split; [exact Hev|]. intros Hfail. rewrite Hev.
    destruct reply as [err|i r]; [reflexivity|]. cbn [verdict].
    specialize (Hfail i r eq_refl). apply Z.eqb_neq in Hfail. rewrite Hfail. reflexivity.
Qed.

(** [UpdateUser] fails in four ways, each with its own error and a nil
    user: the update call fails or is answered with a status other than 200,
    and then nothing is read back; or the update is accepted and the read
    that follows fails or is answered with a status other than 200, and then
    the error is [GetUser]'s although the provider has taken the update. *)
Theorem UpdateUser_errors userID (traits : gmap string GoValue) (w : World R) :
  let upd := IdentityAPI_UpdateIdentity (admin k) userID traits (remote w) in
  let w1 := after w (Call_UpdateIdentity userID traits) upd.2 in
  let res := UpdateUser k userID traits w in
  (forall err, upd.1 = Failed err ->
     res = ((None, Some (ErrorfW "failed to update user: " err)), w1))
  /\ (forall i resp, upd.1 = Returned i resp -> StatusCode resp <> StatusOK ->
     res = ((None, Some (ErrorfD "failed to update user: status " (StatusCode resp))), w1))
  /\ (forall i resp, upd.1 = Returned i resp -> StatusCode resp = StatusOK ->
     let get := IdentityAPI_GetIdentity (admin k) (GetId i) upd.2 in
     let w2 := after w1 (Call_GetIdentity (GetId i)) get.2 in
     (forall err, get.1 = Failed err ->
        res = ((None, Some (ErrorfW "failed to get user: " err)), w2))
     /\ (forall i2 r2, get.1 = Returned i2 r2 -> StatusCode r2 <> StatusOK ->
        res = ((None, Some (ErrorfD "user not found: status " (StatusCode r2))), w2))
     /\ (forall i2 r2, get.1 = Returned i2 r2 -> StatusCode r2 = StatusOK ->
        res.1.2 = None /\ is_Some res.1.1))
  /\ (is_Some res.1.2 -> res.1.1 = None).
Proof.
  intros upd w1 res. subst upd w1 res.
  destruct (IdentityAPI_UpdateIdentity (admin k) userID traits (remote w))
    as [[err|i resp] st] eqn:Hupd; cbn [fst snd].
  { assert (Hres : UpdateUser k userID traits w
                   = ((None, Some (ErrorfW "failed to update user: " err)),
                      after w (Call_UpdateIdentity userID traits) st)).
    { unfold UpdateUser. run. rewrite Hupd. reflexivity. }
    rewrite Hres. settle. }
  destruct (Z.eq_dec (StatusCode resp) StatusOK) as [Hs|Hs].
  2:{ assert (Hres : UpdateUser k userID traits w
                     = ((None, Some (ErrorfD "failed to update user: status "
                                             (StatusCode resp))),
                        after w (Call_UpdateIdentity userID traits) st)).
      { unfold UpdateUser. run. rewrite Hupd. apply Z.eqb_neq in Hs. rewrite Hs.
        reflexivity. }
      rewrite Hres. settle. }
  rewrite (UpdateUser_reread _ _ _ _ _ _ Hupd Hs).
  set (w1 := after w (Call_UpdateIdentity userID traits) st).
  assert (Hrem : remote w1 = st) by reflexivity.
  destruct (IdentityAPI_GetIdentity (admin k) (GetId i) st) as [[e2|i2 r2] st2] eqn:Hget.
  { rewrite <- Hrem in Hget. rewrite (GetUser_failed k _ _ _ _ Hget).
    rewrite Hrem in Hget.
    refine (conj _ (conj _ (conj _ _)));
      [ intros ? Hc; discriminate Hc
      | intros ? ? [= <- <-] Hn; contradiction
      | intros ? ? [= <- <-] _; cbn zeta; rewrite Hget; cbn [fst snd]; settle
      | settle ]. }
  destruct (Z.eq_dec (StatusCode r2) StatusOK) as [Hs2|Hs2].
  2:{ rewrite <- Hrem in Hget. rewrite (GetUser_status k _ _ _ _ _ Hget Hs2).
      rewrite Hrem in Hget.
      refine (conj _ (conj _ (conj _ _)));
        [ intros ? Hc; discriminate Hc
        | intros ? ? [= <- <-] Hn; contradiction
        | intros ? ? [= <- <-] _; cbn zeta; rewrite Hget; cbn [fst snd]; settle
        | settle ]. }
  rewrite <- Hrem in Hget. rewrite (GetUser_found k _ _ _ _ _ Hget Hs2).
  rewrite Hrem in Hget. cbn zeta. cbn [fst snd].
  refine (conj _ (conj _ (conj _ _)));
    [ intros ? Hc; discriminate Hc
    | intros ? ? [= <- <-] Hn; contradiction
    | intros ? ? [= <- <-] _; rewrite Hget; cbn [fst snd]; settle
    | settle ].
Qed.

(** ** More on the middleware *)

(** The request handed to the next handler is the inbound one with one
    more context binding: headers and cookies are the same, so is the
    token the extractor finds, every context value under another key is
    still there, and ["user"] now holds the validated user, replacing
    whatever the inbound context held under that key. *)
Theorem SessionMiddleware_preserves_request (next : Handler) (r : Request) (w : World R)
    user w1 :
  extractSessionToken r <> "" ->
  ValidateSession k (extractSessionToken r) w = ((user, None), w1) ->
  exists r',
    SessionMiddleware k next r w = next r' (after w1 (Next_ServeHTTP r') (remote w1))
    /\ Header r' = Header r
    /\ Cookies r' = Cookies r
    /\ extractSessionToken r' = extractSessionToken r
    /\ (forall key, key <> "user" ->
                    Context_Value (Ctx r') key = Context_Value (Ctx r) key)
    /\ Context_Value (Ctx r') "user" = Some (CtxUser user).
Proof.
  intros Ht Hv. eexists. split; [exact (SessionMiddleware_accepted k _ _ _ _ _ Ht Hv)|].
  split; [reflexivity|]. split; [reflexivity|]. split; [reflexivity|].
  split; [|reflexivity].
  intros key Hk. cbn [WithContext Ctx WithValue Context_Value].
  destruct (String.eqb_spec "user" key) as [He|_]; [|reflexivity].
  symmetry in He. contradiction.
Qed.

(** An [Authorization] header that is ["Bearer "] and nothing more ends the
    request with 401 "Session token required" and without a call to the
    provider, even when the [X-Session-Token] header or the cookie carries a
    token: the extractor does not fall through from an empty Bearer token. *)
Theorem SessionMiddleware_empty_bearer (next : Handler) (r : Request) (w : World R) :
  Header_Get (Header r) "Authorization" = "Bearer " ->
  extractSessionToken r = ""
  /\ SessionMiddleware k next r w
     = (tt, after w (Http_Error "Session token required" StatusUnauthorized) (remote w))
  /\ trace (SessionMiddleware k next r w).2
     = (trace w ++ [Http_Error "Session token required" StatusUnauthorized])%list.
Proof.
  intros Ha.
  assert (Ht : extractSessionToken r = "").
  { unfold extractSessionToken. rewrite Ha. reflexivity. }
  split; [exact Ht|].
  rewrite (SessionMiddleware_no_token k next _ w Ht). split; reflexivity.
Qed.

(** Whatever the request and the provider do, the middleware itself does
    exactly one thing: it writes one 401 response whose body is one of the
    two fixed messages and serves nothing, or it serves the next handler
    once and writes nothing. The provider's error never reaches the
    response. (Observed with a next handler that does nothing.) *)
Theorem SessionMiddleware_one_outcome (r : Request) (w : World R) :
  let out := (SessionMiddleware k idle r w).2 in
  (served (trace out) = served (trace w)
   /\ (written (trace out)
       = (written (trace w) ++ [("Session token required", StatusUnauthorized)])%list
       \/ written (trace out)
          = (written (trace w) ++ [("Invalid session", StatusUnauthorized)])%list))
  \/ (written (trace out) = written (trace w)
      /\ exists r', served (trace out) = (served (trace w) ++ [r'])%list
                    /\ Header r' = Header r /\ Cookies r' = Cookies r).
Proof.
  intros out. subst out.
  destruct (String.eqb_spec (extractSessionToken r) "") as [Ht|Ht].
  { left. rewrite (SessionMiddleware_no_token k idle _ w Ht). cbn [snd].
    rewrite served_after, written_after, app_nil_r. split; [reflexivity|].
    left. reflexivity. }
  destruct (ValidateSession_quiet k (extractSessionToken r) w) as [Hq1 Hq2].
  destruct (ValidateSession k (extractSessionToken r) w) as [[user [err|]] w1] eqn:Hv;
    cbn [snd] in Hq1, Hq2.
  - left. rewrite (SessionMiddleware_rejected k idle _ _ _ _ _ Ht Hv). cbn [snd].
    rewrite served_after, written_after, app_nil_r, Hq1, Hq2.
    split; [reflexivity|]. right. reflexivity.
  - right. rewrite (SessionMiddleware_accepted k idle _ _ _ _ Ht Hv).
    unfold idle. run. cbn [snd].
    rewrite served_after, written_after, app_nil_r, Hq1, Hq2.
    split; [reflexivity|]. eexists. split; [reflexivity|]. split; reflexivity.
Qed.

(** ** The verification resolver and the order of addresses *)

(** The answer of [isEmailVerified] does not depend on where an address
    stands in its list, and more addresses never take a verification away:
    if every verifiable and every recovery address of one fetched record
    also occurs in another, and the first is verified, so is the second. *)
Theorem isEmailVerified_monotone userID (w w' : World R) i i' resp resp' st st' :
  IdentityAPI_GetIdentity (admin k) userID (remote w) = (Returned i resp, st) ->
  StatusCode resp = StatusOK ->
  IdentityAPI_GetIdentity (admin k) userID (remote w') = (Returned i' resp', st') ->
  StatusCode resp' = StatusOK ->
  incl (GetVerifiableAddresses i) (GetVerifiableAddresses i') ->
  incl (GetRecoveryAddresses i) (GetRecoveryAddresses i') ->
  (isEmailVerified k userID w).1 = true ->
  (isEmailVerified k userID w').1 = true.
Proof.
  intros H Hs H' Hs' Hv Hr.
  rewrite (isEmailVerified_run _ _ _ _ H), (isEmailVerified_run _ _ _ _ H').
  cbn [fst verdict]. rewrite Hs, Hs'. change (StatusOK =? StatusOK) with true.
  cbn [andb]. rewrite !orb_true_iff, !scanVerifiable_Exists, !scanRecovery_Exists.
  rewrite !Exists_exists.
  intros [(a & Hin & Ha)|(a & Hin & Ha)]; [left | right]; exists a;
    (split; [apply list_elem_of_In; first [apply Hv | apply Hr];
             apply list_elem_of_In; exact Hin
            | exact Ha]).
Qed.

End MoreClientProperties.

(** ** The further properties on concrete providers *)

Lemma ValidateSession_two_views_witness :
  exists user w',
    ValidateSession provider_two_views "abc" (start tt) = ((Some user, None), w')
    /\ ID user = "u1"
    /\ Email user = "a@b.com"
    /\ Traits user = GetTraits identity_u1
    /\ EmailVerified user = true.
Proof.
  edestruct (ValidateSession_two_views provider_two_views "abc" (start tt)
               (session_of true identity_u1) ok tt (Returned identity_u2 ok) tt)
    as (user & Hrun & Hid & _ & _ & _ & Htr & Hfields & Hev & _);
    [discriminate | reflexivity | reflexivity | reflexivity | reflexivity |].
  exists user. eexists. split; [exact Hrun|]. split; [exact Hid|].
  split; [|split; [exact Htr | exact Hev]].
  apply (Hfields "email" Email). cbn. auto.
Defined.

Lemma GetUser_reads_twice_witness :
  exists user w',
    GetUser provider_u2 "u2" (start tt) = ((Some user, None), w')
    /\ trace w' = [Call_GetIdentity "u2"; Call_GetIdentity "u2"]
    /\ Active user = false
    /\ EmailVerified user = true.
Proof.
  edestruct (GetUser_reads_twice provider_u2 "u2" (start tt) identity_u2 ok tt
               (Returned identity_u2 ok) tt)
    as (user & Hrun & _ & Hact & _ & _ & _ & _ & Hev & _);
    [reflexivity | reflexivity | reflexivity |].
  exists user. eexists. split; [exact Hrun|]. split; [reflexivity|].
  split; [exact Hact | exact Hev].
Defined.

Lemma UpdateUser_errors_witness :
  (UpdateUser provider_update_only "u1" new_traits (start tt)).1
  = (None, Some (ErrorfW "failed to get user: " (ClientError "404 Not Found")))
  /\ trace (UpdateUser provider_update_only "u1" new_traits (start tt)).2
     = [Call_UpdateIdentity "u1" new_traits; Call_GetIdentity "u1"].
Proof.
  pose proof (UpdateUser_errors provider_update_only "u1" new_traits (start tt))
    as (_ & _ & Haccepted & _).
  destruct (Haccepted identity_u1 ok eq_refl eq_refl) as (Hfailed & _).
  rewrite (Hfailed (ClientError "404 Not Found") eq_refl). split; reflexivity.
Defined.

Lemma SessionMiddleware_preserves_request_witness :
  exists r',
    served (trace (SessionMiddleware provider_u1 idle request_abc_ctx (start tt)).2) = [r']
    /\ Header r' = Header request_abc_ctx
    /\ Context_Value (Ctx r') "request_id" = Some (CtxOther (VString "r-17"))
    /\ (GetUserFromContext (Ctx request_abc_ctx)).2 = false
    /\ (GetUserFromContext (Ctx r')).2 = true.
Proof.
  edestruct (SessionMiddleware_preserves_request provider_u1 idle request_abc_ctx (start tt))
    as (r' & Hrun & Hh & _ & _ & Hother & Huser);
    [vm_compute; discriminate | vm_compute; reflexivity |].
  exists r'. split; [rewrite Hrun; reflexivity|]. split; [exact Hh|].
  split; [rewrite (Hother "request_id"); [reflexivity | discriminate]|].
  split; [reflexivity|].
  rewrite (GetUserFromContext_bound _ _ Huser). reflexivity.
Defined.

Lemma SessionMiddleware_empty_bearer_witness :
  SessionMiddleware provider_u1 idle request_empty_bearer (start tt)
  = (tt, after (start tt) (Http_Error "Session token required" StatusUnauthorized) tt).
Proof.
  apply (SessionMiddleware_empty_bearer provider_u1 idle request_empty_bearer (start tt)).
  reflexivity.
Defined.

Lemma isEmailVerified_monotone_witness :
  (isEmailVerified memory "u2" (start store_u2_more)).1 = true.
Proof.
  apply (isEmailVerified_monotone memory "u2" (start store_u2) (start store_u2_more)
           (serve "u2" identity_u2 VNil) (serve "u2" identity_u2_more VNil)
           ok ok store_u2 store_u2_more);
    try reflexivity.
  - intros a [<-|[]]. cbn. auto.
  - intros a [].
Defined.

Lemma registration_defined_iff_witness :
  is_Some (registration (hook_ctx (VString "u1") hook_traits))
  /\ registration (hook_ctx (VString "u1") {[ "email" := VString "a@b.com" ]}) = None.
Proof.
  split.
  - apply (proj2 (registration_defined_iff (hook_ctx (VString "u1") hook_traits))).
    eexists _, (VString "u1"), hook_traits, _, _.
    split; [reflexivity|]. split; [reflexivity|]. split; [reflexivity|].
    split; reflexivity.
  - destruct (registration (hook_ctx (VString "u1") {[ "email" := VString "a@b.com" ]}))
      as [body|] eqn:Hreg; [|reflexivity].
    destruct (proj1 (registration_defined_iff
                       (hook_ctx (VString "u1") {[ "email" := VString "a@b.com" ]}))
                    (ex_intro _ body Hreg))
      as (identity & id & t & e & u & Hi & _ & Ht & _ & Hu).
    injection Hi as <-. injection Ht as <-. discriminate Hu.
Defined.

Lemma registration_body_witness :
  exists body,
    registration (hook_ctx (VString "u1") hook_traits) = Some (VMap body)
    /\ body !! "first_name" = Some (VString "Ann")
    /\ body !! "last_name" = Some (VString "")
    /\ body !! "subscription_plan" = Some (VString "free")
    /\ getStringFromTraits (VMap hook_traits) "subscription_plan" = "".
Proof.
  edestruct (registration_body (hook_ctx (VString "u1") hook_traits)
               (VMap {[ "id" := VString "u1"; "traits" := VMap hook_traits ]})
               (VString "u1") hook_traits (VString "a@b.com") (VString "ann"))
    as (body & Hrun & _ & _ & _ & Hfirst & Hlast & _ & _ & Hplan);
    [reflexivity | reflexivity | reflexivity | reflexivity | reflexivity |].
  exists body. split; [exact Hrun|]. split; [exact Hfirst|]. split; [exact Hlast|].
  exact (Hplan eq_refl).
Defined.
